(** * Reorderable list example: the reorder logic of the drag-and-drop list

    Two copies of the list component are in the repository: the full one
    (src/unnamed/part_000, with the live-region announcement and the
    drop-indicator filter; module [Full]) and the plain one
    (src/src/example.tsx; module [Plain]).  They share the item registry and
    the shape of [reorderItem] and of the monitor's [onDrop]; they differ in
    [isItemData], in [onDrag] and in what the move record holds.  The shared
    parts come first, then one module per copy, then the theorems. *)

From Stdlib Require Import ZArith Lia Bool.
From stdpp Require Import gmap strings list fin_maps.

Local Open Scope Z_scope.

(** ** Data model *)

(** [type Item = { id: string; label: string }] *)
Record Item := mkItem { id : string; label : string }.

(** [defaultItems], the initial list of both components. *)
Definition defaultItems : list Item :=
  [ mkItem "task-1" "Organize a team-building event";
    mkItem "task-2" "Create and maintain office inventory";
    mkItem "task-3" "Update company website content" ].

(** DOM elements and symbols are compared by identity only. *)
Definition HTMLElement := positive.
Definition symbol := positive.

(** [type ItemData = { item: Item; index: number; instanceId: symbol }]: what
    [getInitialData] of a list item puts on a drag. *)
Record ItemData := mkItemData { item : Item; index : Z; instanceId : symbol }.

(** The closest edge of a drop target.  Both components attach it with
    [allowedEdges: ['top', 'bottom']]; [null] is [None]. *)
Inductive Edge := EdgeTop | EdgeBottom.

Definition Edge_eqb (a b : Edge) : bool :=
  match a, b with
  | EdgeTop, EdgeTop | EdgeBottom, EdgeBottom => true
  | _, _ => false
  end.

(** [closestEdge === 'bottom'] where [closestEdge : Edge | null]. *)
Definition edge_is (closestEdge : option Edge) (e : Edge) : bool :=
  match closestEdge with
  | Some c => Edge_eqb c e
  | None => false
  end.

(** A handler either returns or throws ([invariant], a property read on
    [undefined]). *)
Inductive outcome (A : Type) := Returned (a : A) | Threw.
Arguments Returned {A} a.
Arguments Threw {A}.

(** What a handler does to a [useState] cell: nothing, or one call of the
    setter with an updater function. *)
Inductive Dispatch (S : Type) := NoUpdate | SetState (updater : S -> S).
Arguments NoUpdate {S}.
Arguments SetState {S} updater.

(** The state after React has processed the dispatch. *)
Definition commit {S : Type} (d : Dispatch S) (st : S) : S :=
  match d with
  | NoUpdate => st
  | SetState updater => updater st
  end.

(** ** Array operations of the language *)

(** [list[i]] for a number [i]: [undefined] ([None]) outside the array. *)
Definition at_index {A : Type} (l : list A) (i : Z) : option A :=
  if 0 <=? i then l !! Z.to_nat i else None.

(** [list.findIndex(p)]: the first index whose element satisfies [p],
    [-1] when there is none. *)
Fixpoint findIndex_from {A : Type} (p : A -> bool) (k : Z) (l : list A) : Z :=
  match l with
  | [] => -1
  | x :: l' => if p x then k else findIndex_from p (k + 1) l'
  end.

Definition findIndex {A : Type} (p : A -> bool) (l : list A) : Z :=
  findIndex_from p 0 l.

(** ** The two imported helpers *)

(** Modelled from the spec: the test [edge == after] of section 4.2 on the
    vertical axis, where after is ['bottom'] and before is ['top']. *)
Definition isGoingAfter (closestEdgeOfTarget : Edge) : bool :=
  match closestEdgeOfTarget with
  | EdgeTop => false
  | EdgeBottom => true
  end.

(** Modelled from the spec: the body of [getReorderDestinationIndex], which
    both components import from the hitbox package and which is not among
    the sources.  For an edge, section 4.2: "let base = targetIndex + (edge
    == after ? 1 : 0). If sourceIndex < base, destination = base - 1; else
    destination = base".  Both call sites pass [axis: 'vertical'], on which
    before is ['top'] and after is ['bottom']; the axis is fixed here.  For
    a null edge section 9 leaves the treatment open ("not clearly specified
    by observed behavior"): there the model takes what the imported function
    does, whose test [closestEdgeOfTarget == null] hands [indexOfTarget]
    back as it is. *)
Definition getReorderDestinationIndex
    (startIndex : Z) (closestEdgeOfTarget : option Edge) (indexOfTarget : Z) : Z :=
  match closestEdgeOfTarget with
  | None => indexOfTarget
  | Some edge =>
      let base := indexOfTarget + (if isGoingAfter edge then 1 else 0) in
      if startIndex <? base then base - 1 else base
  end.
Arguments getReorderDestinationIndex : simpl never.

(** Put [x] in front of position [i] (at the end when [i] is the length). *)
Definition insert_at {A : Type} (i : nat) (x : A) (l : list A) : list A :=
  take i l ++ x :: drop i l.

(** The preconditions of section 4.3 on one index. *)
Definition in_range {A : Type} (l : list A) (i : Z) : bool :=
  (0 <=? i) && (i <? Z.of_nat (length l)).

(** Modelled from the spec: the body of [reorder], which both components
    import from the drag-and-drop package and which is not among the
    sources.  Section 4.3: "removes the item at sourceIndex and reinserts it
    at destinationIndex in the resulting sequence (standard single-element
    move; all other items retain relative order)".  The result is a list, as
    the call sites use it.  For indices outside [0, length) the spec names
    no resulting list (a violated precondition is "ignored/no-op in
    production"); the model hands the list back as it is there, and the
    theorems on the resulting list all assume both indices in range. *)
Definition reorder {A : Type} (list : Datatypes.list A) (startIndex finishIndex : Z)
  : Datatypes.list A :=
  if in_range list startIndex && in_range list finishIndex then
    match list !! Z.to_nat startIndex with
    | Some removed =>
        insert_at (Z.to_nat finishIndex) removed (delete (Z.to_nat startIndex) list)
    | None => list
    end
  else list.

(** ** Item registry (the same function in both components) *)

(** [getItemRegistry]: the [Map] is the state; [register] sets the entry
    and returns the [unregister] closure, which deletes by [itemId]. *)
Module Registry.

Abbreviation t := (gmap string HTMLElement).

Definition empty : t := ∅.

Definition unregister (itemId : string) (registry : t) : t :=
  delete itemId registry.

Definition register (itemId : string) (element : HTMLElement) (registry : t)
  : t * (t -> t) :=
  (<[itemId := element]> registry, unregister itemId).

(** [registry.get(itemId) ?? null] *)
Definition getElement (itemId : string) (registry : t) : option HTMLElement :=
  registry !! itemId.

End Registry.

(** ** What the adapter hands to the handlers *)

(** [source] of a drag: the dragged element and the data of
    [getInitialData]. *)
Record DragSource (Data : Type) := mkSource
  { source_element : HTMLElement; source_data : Data }.
Arguments mkSource {Data} _ _.
Arguments source_element {Data} _.
Arguments source_data {Data} _.

(** The argument of the monitor's [onDrop]: [source] and the data of the
    drop targets in [location.current.dropTargets], innermost first. *)
Record DropEvent (Data : Type) := mkDrop
  { source : DragSource Data; dropTargets : list Data }.
Arguments mkDrop {Data} _ _.
Arguments source {Data} _.
Arguments dropTargets {Data} _.

(** Modelled from the spec: how [monitorForElements] of the adapter package
    (not among the sources) delivers a drop to a monitor.  Section 9: the
    instance identifier is "threaded through every gesture payload and
    checked by the coordinator before accepting a gesture as belonging to
    this controller": the monitor's [onDrop] runs only for a drag that its
    [canMonitor] accepted. *)
Definition monitorForElements_drop {Data S : Type}
    (canMonitor : DragSource Data -> bool)
    (onDrop : DropEvent Data -> Dispatch S) (ev : DropEvent Data) : Dispatch S :=
  if canMonitor (source ev) then onDrop ev else NoUpdate.

(** What the post-drop effect asks of its collaborators. *)
Inductive Action :=
| TriggerPostMoveFlash (element : HTMLElement)
| Announce (label : string) (position : Z) (newPosition : Z) (numberOfItems : Z).

(** ** The full component (src/unnamed/part_000) *)

Module Full.

(** [Record<string | symbol, unknown>], as far as the handlers read it.
    [itemKey] is a symbol private to the module, so [data[itemKey] === true]
    holds exactly of the objects built by [getItemData] and of their copies
    through [attachClosestEdge]: those are [Tagged].  Of any other payload
    the handlers read [index] only ([onDrag], line 171); [None] there is a
    value that is not a number. *)
Inductive Data :=
| Tagged (d : ItemData) (closestEdge : option Edge)
| Untagged (index : option Z).

Definition getItemData (item : Item) (index : Z) (instanceId : symbol) : Data :=
  Tagged (mkItemData item index instanceId) None.

(** [data[itemKey] === true] *)
Definition isItemData (data : Data) : bool :=
  match data with
  | Tagged _ _ => true
  | Untagged _ => false
  end.

(** The narrowing [data is ItemData] that [isItemData] licenses. *)
Definition asItemData (data : Data) : option ItemData :=
  match data with
  | Tagged d _ => Some d
  | Untagged _ => None
  end.

(** [data.index] when it is a number. *)
Definition data_index (data : Data) : option Z :=
  match data with
  | Tagged d _ => Some (index d)
  | Untagged i => i
  end.

(** [attachClosestEdge(data, { element, input, allowedEdges })]: a copy of
    [data] carrying the allowed edge closest to the pointer, here given. *)
Definition attachClosestEdge (data : Data) (closest : Edge) : Data :=
  match data with
  | Tagged d _ => Tagged d (Some closest)
  | Untagged i => Untagged i
  end.

(** [extractClosestEdge(data)]: the attached edge, [null] without one. *)
Definition extractClosestEdge (data : Data) : option Edge :=
  match data with
  | Tagged _ closestEdge => closestEdge
  | Untagged _ => None
  end.

(** [source.data.instanceId === instanceId], read after [isItemData]. *)
Definition sameInstance (data : Data) (instanceId0 : symbol) : bool :=
  match asItemData data with
  | Some d => Pos.eqb (instanceId d) instanceId0
  | None => false
  end.

(** *** [ListItem]: the drop target of one item *)

Section ListItem.

Variable element : HTMLElement.
Variable index0 : Z.
Variable instanceId0 : symbol.

Definition canDrop (source0 : DragSource Data) : bool :=
  isItemData (source_data source0) && sameInstance (source_data source0) instanceId0.

(** The value passed to [setClosestEdge], which is the indicator the item
    renders ([closestEdge && <DropIndicator edge={closestEdge} />]). *)
Definition onDrag (self_data : Data) (source0 : DragSource Data)
  : outcome (option Edge) :=
  let isSource := Pos.eqb (source_element source0) element in
  if isSource then Returned None
  else
    let closestEdge := extractClosestEdge self_data in
    match data_index (source_data source0) with
    | None => Threw
    | Some sourceIndex =>
        let isItemBeforeSource := index0 =? sourceIndex - 1 in
        let isItemAfterSource := index0 =? sourceIndex + 1 in
        let isDropIndicatorHidden :=
          (isItemBeforeSource && edge_is closestEdge EdgeBottom)
          || (isItemAfterSource && edge_is closestEdge EdgeTop) in
        if isDropIndicatorHidden then Returned None
        else Returned closestEdge
    end.

Definition onDragLeave : option Edge := None.

End ListItem.

(** *** [ListExample]: the list state and the monitor *)

(** [lastCardMoved]; [mr_item] is [listState.items[startIndex]], which is
    [undefined] ([None]) for an index outside the array. *)
Record MoveRecord := mkMoveRecord
  { mr_item : option Item;
    previousIndex : Z;
    currentIndex : Z;
    numberOfItems : Z }.

Record ListState := mkListState
  { items : list Item; lastCardMoved : option MoveRecord }.

(** The updater given to [setListState] (lines 320-336). *)
Definition reorderItem_updater (startIndex finishIndex : Z) (listState : ListState)
  : ListState :=
  let item := at_index (items listState) startIndex in
  {| items := reorder (items listState) startIndex finishIndex;
     lastCardMoved :=
       Some {| mr_item := item;
               previousIndex := startIndex;
               currentIndex := finishIndex;
               numberOfItems := Z.of_nat (length (items listState)) |} |}.

Definition reorderItem (startIndex indexOfTarget : Z) (closestEdgeOfTarget : option Edge)
  : Dispatch ListState :=
  let finishIndex :=
    getReorderDestinationIndex startIndex closestEdgeOfTarget indexOfTarget in
  if finishIndex =? startIndex then NoUpdate
  else SetState (reorderItem_updater startIndex finishIndex).

Definition canMonitor (instanceId0 : symbol) (source0 : DragSource Data) : bool :=
  isItemData (source_data source0) && sameInstance (source_data source0) instanceId0.

(** The monitor's [onDrop], closed over the [items] of the current render. *)
Definition onDrop (items0 : list Item) (ev : DropEvent Data) : Dispatch ListState :=
  match head (dropTargets ev) with
  | None => NoUpdate
  | Some targetData =>
      let sourceData := source_data (source ev) in
      if negb (isItemData sourceData) || negb (isItemData targetData) then NoUpdate
      else
        match asItemData sourceData, asItemData targetData with
        | Some sourceItem, Some targetItem =>
            let indexOfTarget :=
              findIndex (fun it => String.eqb (id it) (id (item targetItem))) items0 in
            if indexOfTarget <? 0 then NoUpdate
            else
              let closestEdgeOfTarget := extractClosestEdge targetData in
              reorderItem (index sourceItem) indexOfTarget closestEdgeOfTarget
        | _, _ => NoUpdate
        end
  end.

(** The drop as the adapter delivers it to this list. *)
Definition drop (instanceId0 : symbol) (items0 : list Item) (ev : DropEvent Data)
  : Dispatch ListState :=
  monitorForElements_drop (canMonitor instanceId0) (onDrop items0) ev.

(** The post-drop effect (lines 375-391), run with the state it sees. *)
Definition postMoveEffect (lastCardMoved0 : option MoveRecord) (registry : Registry.t)
  : outcome (list Action) :=
  match lastCardMoved0 with
  | None => Returned []
  | Some m =>
      match mr_item m with
      | None => Threw
      | Some it =>
          let flash :=
            match Registry.getElement (id it) registry with
            | Some el => [TriggerPostMoveFlash el]
            | None => []
            end in
          Returned (flash ++
            [Announce (label it) (previousIndex m + 1) (currentIndex m + 1)
               (numberOfItems m)])
      end
  end.

(** The effect depends on [lastCardMoved] and on the registry, which is
    kept in state: it runs again only after an update has installed a new
    [lastCardMoved] object.  This is what the effect does once the list of
    the new state has been rendered; the render itself is not modelled, and
    the theorems read [effectAfter] only for an update that is skipped or
    whose start index is inside the list, where every element rendered is
    an item of the list. *)
Definition effectAfter (d : Dispatch ListState) (st : ListState) (registry : Registry.t)
  : outcome (list Action) :=
  match d with
  | NoUpdate => Returned []
  | SetState updater => postMoveEffect (lastCardMoved (updater st)) registry
  end.

End Full.

(** ** The plain component (src/src/example.tsx) *)

Module Plain.

(** [Record<string | symbol, unknown>], as far as the handlers read it: the
    three properties [isItemData] tests and the edge attached to a drop
    target, each [None] when [undefined]. *)
Record Data := mkData
  { data_item : option Item;
    data_index : option Z;
    data_instanceId : option symbol;
    data_closestEdge : option Edge }.

(** [const data = { item, index, instanceId }] *)
Definition itemData (item0 : Item) (index0 : Z) (instanceId0 : symbol) : Data :=
  mkData (Some item0) (Some index0) (Some instanceId0) None.

(** [data?.item !== undefined && data?.index !== undefined &&
    data?.instanceId !== undefined] *)
Definition isItemData (data : Data) : bool :=
  bool_decide (data_item data ≠ None)
  && bool_decide (data_index data ≠ None)
  && bool_decide (data_instanceId data ≠ None).

(** The narrowing [data is ItemData] that [isItemData] licenses. *)
Definition asItemData (data : Data) : option ItemData :=
  match data_item data, data_index data, data_instanceId data with
  | Some it, Some i, Some s => Some (mkItemData it i s)
  | _, _, _ => None
  end.

Definition attachClosestEdge (data : Data) (closest : Edge) : Data :=
  mkData (data_item data) (data_index data) (data_instanceId data) (Some closest).

Definition extractClosestEdge (data : Data) : option Edge :=
  data_closestEdge data.

(** [source.data.instanceId === instanceId] *)
Definition sameInstance (data : Data) (instanceId0 : symbol) : bool :=
  match data_instanceId data with
  | Some s => Pos.eqb s instanceId0
  | None => false
  end.

(** *** [ListItem]: the drop target of one item *)

Section ListItem.

Variable element : HTMLElement.
Variable instanceId0 : symbol.

Definition canDrop (source0 : DragSource Data) : bool :=
  isItemData (source_data source0) && sameInstance (source_data source0) instanceId0.

(** The value passed to [setClosestEdge] (lines 76-85); the item renders
    its top border for ['top'] and its bottom border for ['bottom']. *)
Definition onDrag (self_data : Data) (source0 : DragSource Data) : option Edge :=
  let isSource := Pos.eqb (source_element source0) element in
  if isSource then None
  else
    let closestEdge := extractClosestEdge self_data in
    closestEdge.

Definition onDragLeave : option Edge := None.

End ListItem.

(** *** [ListExample]: the list state and the monitor *)

(** [lastMoved: { item: Item } | null]; [lm_item] is
    [listState.items[startIndex]]. *)
Record LastMoved := mkLastMoved { lm_item : option Item }.

Record ListState := mkListState
  { items : list Item; lastMoved : option LastMoved }.

(** The updater given to [setListState] (lines 178-191). *)
Definition reorderItem_updater (startIndex finishIndex : Z) (listState : ListState)
  : ListState :=
  let item := at_index (items listState) startIndex in
  {| items := reorder (items listState) startIndex finishIndex;
     lastMoved := Some {| lm_item := item |} |}.

Definition reorderItem (startIndex indexOfTarget : Z) (closestEdgeOfTarget : option Edge)
  : Dispatch ListState :=
  let finishIndex :=
    getReorderDestinationIndex startIndex closestEdgeOfTarget indexOfTarget in
  if finishIndex =? startIndex then NoUpdate
  else SetState (reorderItem_updater startIndex finishIndex).

Definition canMonitor (instanceId0 : symbol) (source0 : DragSource Data) : bool :=
  isItemData (source_data source0) && sameInstance (source_data source0) instanceId0.

(** The monitor's [onDrop], closed over the [items] of the current render. *)
Definition onDrop (items0 : list Item) (ev : DropEvent Data) : Dispatch ListState :=
  match head (dropTargets ev) with
  | None => NoUpdate
  | Some targetData =>
      let sourceData := source_data (source ev) in
      if negb (isItemData sourceData) || negb (isItemData targetData) then NoUpdate
      else
        match asItemData sourceData, asItemData targetData with
        | Some sourceItem, Some targetItem =>
            let indexOfTarget :=
              findIndex (fun it => String.eqb (id it) (id (item targetItem))) items0 in
            if indexOfTarget <? 0 then NoUpdate
            else
              reorderItem (index sourceItem) indexOfTarget
                (extractClosestEdge targetData)
        | _, _ => NoUpdate
        end
  end.

(** The drop as the adapter delivers it to this list. *)
Definition drop (instanceId0 : symbol) (items0 : list Item) (ev : DropEvent Data)
  : Dispatch ListState :=
  monitorForElements_drop (canMonitor instanceId0) (onDrop items0) ev.

(** The post-drop effect (lines 228-236). *)
Definition postMoveEffect (lastMoved0 : option LastMoved) (registry : Registry.t)
  : outcome (list Action) :=
  match lastMoved0 with
  | None => Returned []
  | Some m =>
      match lm_item m with
      | None => Threw
      | Some it =>
          match Registry.getElement (id it) registry with
          | Some el => Returned [TriggerPostMoveFlash el]
          | None => Returned []
          end
      end
  end.

(** A handler that sets no state causes no render, hence no effect run.
    After an update, this is what the effect does once the list of the new
    state has been rendered; the render itself is not modelled, and the
    theorems read [effectAfter] only for an update that is skipped or whose
    start index is inside the list. *)
Definition effectAfter (d : Dispatch ListState) (st : ListState) (registry : Registry.t)
  : outcome (list Action) :=
  match d with
  | NoUpdate => Returned []
  | SetState updater => postMoveEffect (lastMoved (updater st)) registry
  end.

End Plain.

(** ** The move record as the announcement collaborator reads it *)

(** Section 3 of the specification reads four properties off the move
    record; a property the object does not have reads as [undefined]. *)
Record MoveView := mkMoveView
  { view_item : option Item;
    view_previousIndex : option Z;
    view_currentIndex : option Z;
    view_totalCount : option Z }.

Definition Full_view (m : Full.MoveRecord) : MoveView :=
  {| view_item := Full.mr_item m;
     view_previousIndex := Some (Full.previousIndex m);
     view_currentIndex := Some (Full.currentIndex m);
     view_totalCount := Some (Full.numberOfItems m) |}.

Definition Plain_view (m : Plain.LastMoved) : MoveView :=
  {| view_item := Plain.lm_item m;
     view_previousIndex := None;
     view_currentIndex := None;
     view_totalCount := None |}.

(** The preconditions of section 4.3 on a move. *)
Definition valid_move {A : Type} (l : list A) (s d : Z) : Prop :=
  0 <= s < Z.of_nat (length l) /\ 0 <= d < Z.of_nat (length l) /\ s <> d.

(** ** Rendering, gestures and the life of the registry *)

(** The payload of the list item rendered at position [i]:
    [items.map((item, index) => <ListItem item={item} index={index} />)] and,
    inside the item, [getItemData({ item, index, instanceId })]. *)
Definition Full_payload (instanceId0 : symbol) (it : Item) (i : nat) : Full.Data :=
  Full.getItemData it (Z.of_nat i) instanceId0.

Definition Plain_payload (instanceId0 : symbol) (it : Item) (i : nat) : Plain.Data :=
  Plain.itemData it (Z.of_nat i) instanceId0.

(** A drop of the item rendered at [i] on the item rendered at [j], whose
    [getData] has attached the edge [e]; [handle] is the dragged element and
    [outer] are the enclosing drop targets, if any. *)
Definition Full_gesture (instanceId0 : symbol) (handle : HTMLElement)
    (si : Item) (i : nat) (tj : Item) (j : nat) (e : Edge) (outer : list Full.Data)
  : DropEvent Full.Data :=
  mkDrop (mkSource handle (Full_payload instanceId0 si i))
    (Full.attachClosestEdge (Full_payload instanceId0 tj j) e :: outer).

Definition Plain_gesture (instanceId0 : symbol) (handle : HTMLElement)
    (si : Item) (i : nat) (tj : Item) (j : nat) (e : Edge) (outer : list Plain.Data)
  : DropEvent Plain.Data :=
  mkDrop (mkSource handle (Plain_payload instanceId0 si i))
    (Plain.attachClosestEdge (Plain_payload instanceId0 tj j) e :: outer).

(** The list states of the full component that drops between rendered
    items can produce from the initial list. *)
Inductive Full_reachable (instanceId0 : symbol) (init : list Item)
  : Full.ListState -> Prop :=
| Full_reach_init : Full_reachable instanceId0 init (Full.mkListState init None)
| Full_reach_drop st handle si i tj j e outer :
    Full_reachable instanceId0 init st ->
    Full.items st !! i = Some si ->
    Full.items st !! j = Some tj ->
    Full_reachable instanceId0 init
      (commit (Full.drop instanceId0 (Full.items st)
                 (Full_gesture instanceId0 handle si i tj j e outer)) st).

Inductive Plain_reachable (instanceId0 : symbol) (init : list Item)
  : Plain.ListState -> Prop :=
| Plain_reach_init : Plain_reachable instanceId0 init (Plain.mkListState init None)
| Plain_reach_drop st handle si i tj j e outer :
    Plain_reachable instanceId0 init st ->
    Plain.items st !! i = Some si ->
    Plain.items st !! j = Some tj ->
    Plain_reachable instanceId0 init
      (commit (Plain.drop instanceId0 (Plain.items st)
                 (Plain_gesture instanceId0 handle si i tj j e outer)) st).

(** The effects of the mounted list items call
    [registerItem({ itemId: item.id, element })] one after the other, and
    their cleanups call the [unregister] each of them got back. *)
Definition registerAll (mounted : list (Item * HTMLElement)) (registry : Registry.t)
  : Registry.t :=
  foldl (fun r m => fst (Registry.register (id m.1) m.2 r)) registry mounted.

Definition unregisterAll (mounted : list (Item * HTMLElement)) (registry : Registry.t)
  : Registry.t :=
  foldl (fun r m => Registry.unregister (id m.1) r) registry mounted.

(** * Theorems *)

(** ** The destination index *)

Lemma getReorderDestinationIndex_before (s t : Z) :
  getReorderDestinationIndex s (Some EdgeTop) t = if s <? t then t - 1 else t.
Proof.
  unfold getReorderDestinationIndex; cbn.
  rewrite Z.add_0_r. reflexivity.
Qed.

Lemma getReorderDestinationIndex_after (s t : Z) :
  getReorderDestinationIndex s (Some EdgeBottom) t = if s <=? t then t else t + 1.
Proof.
  unfold getReorderDestinationIndex; cbn.
  destruct (Z.ltb_spec s (t + 1)), (Z.leb_spec s t); lia.
Qed.

(** Dropping an item on itself gives its own index back, whatever the edge. *)
Lemma getReorderDestinationIndex_self (s : Z) (e : option Edge) :
  getReorderDestinationIndex s e s = s.
Proof.
  unfold getReorderDestinationIndex.
  destruct e as [[] |]; cbn; [| | reflexivity];
    match goal with |- context [?a <? ?b] => destruct (Z.ltb_spec a b) end; lia.
Qed.

(** C1: for source and target indices in [0, length) and an edge before
    ('top') or after ('bottom'), with base = targetIndex + (1 if the edge is
    after, else 0), the destination index is base - 1 when sourceIndex < base
    and base otherwise, and it lies in [0, length). *)
Theorem getReorderDestinationIndex_rule (len s t : Z) (e : Edge) :
  0 <= s < len -> 0 <= t < len ->
  let base := t + match e with EdgeBottom => 1 | EdgeTop => 0 end in
  (s < base -> getReorderDestinationIndex s (Some e) t = base - 1)
  /\ (base <= s -> getReorderDestinationIndex s (Some e) t = base)
  /\ 0 <= getReorderDestinationIndex s (Some e) t < len.
Proof.
  intros Hs Ht base.
  assert (Hrule : getReorderDestinationIndex s (Some e) t
                  = if s <? base then base - 1 else base).
  { subst base. destruct e; reflexivity. }
  rewrite Hrule.
  destruct (Z.ltb_spec s base) as [Hlt | Hge].
  - repeat split; try lia; subst base; destruct e; lia.
  - repeat split; try lia; subst base; destruct e; lia.
Qed.

Lemma getReorderDestinationIndex_rule_witness :
  (0 < 3 -> getReorderDestinationIndex 0 (Some EdgeBottom) 2 = 3 - 1)
  /\ (3 <= 0 -> getReorderDestinationIndex 0 (Some EdgeBottom) 2 = 3)
  /\ 0 <= getReorderDestinationIndex 0 (Some EdgeBottom) 2 < 3.
Proof.
  apply (getReorderDestinationIndex_rule 3 0 2 EdgeBottom); lia.
Defined.




(** ** The single-element move *)

Section Move.

Context {A : Type}.
Implicit Types (l : list A) (x : A) (i : nat) (s d : Z).

Lemma length_insert_at i x l : length (insert_at i x l) = S (length l).
Proof.
  unfold insert_at. rewrite length_app; cbn.
  rewrite length_take, length_drop. lia.
Qed.

Lemma lookup_insert_at i x l :
  (i <= length l)%nat -> insert_at i x l !! i = Some x.
Proof.
  intros Hi. unfold insert_at.
  apply list_lookup_middle. symmetry. by apply length_take_le.
Qed.

Lemma delete_insert_at i x l :
  (i <= length l)%nat -> delete i (insert_at i x l) = l.
Proof.
  intros Hi. unfold insert_at.
  rewrite <- (length_take_le l i) at 1 by exact Hi.
  rewrite delete_middle. apply take_drop.
Qed.

Lemma insert_at_delete i x l :
  l !! i = Some x -> insert_at i x (delete i l) = l.
Proof.
  intros Hx. pose proof (lookup_lt_Some _ _ _ Hx) as Hi.
  unfold insert_at. rewrite delete_take_drop.
  rewrite take_app_length' by (rewrite length_take_le; lia).
  rewrite drop_app_length' by (rewrite length_take_le; lia).
  by apply take_drop_middle.
Qed.

Lemma in_range_spec l s :
  in_range l s = true <-> 0 <= s < Z.of_nat (length l).
Proof.
  unfold in_range. rewrite andb_true_iff, Z.leb_le, Z.ltb_lt. tauto.
Qed.

Lemma at_index_in_range l s :
  0 <= s < Z.of_nat (length l) ->
  exists x, at_index l s = Some x /\ l !! Z.to_nat s = Some x.
Proof.
  intros Hs. unfold at_index.
  destruct (Z.leb_spec 0 s); [| lia].
  destruct (lookup_lt_is_Some_2 l (Z.to_nat s)) as [x Hx]; [lia |].
  exists x. by rewrite Hx.
Qed.

(** Inside the index range the move is: take the element out, put it back
    in front of position [d] of what is left. *)
Lemma reorder_in_range l s d x :
  0 <= s < Z.of_nat (length l) -> 0 <= d < Z.of_nat (length l) ->
  l !! Z.to_nat s = Some x ->
  reorder l s d = insert_at (Z.to_nat d) x (delete (Z.to_nat s) l).
Proof.
  intros Hs Hd Hx. unfold reorder.
  rewrite (proj2 (in_range_spec l s) Hs), (proj2 (in_range_spec l d) Hd); cbn.
  by rewrite Hx.
Qed.

Lemma length_delete_in_range l i x :
  l !! i = Some x -> length (delete i l) = (length l - 1)%nat.
Proof. intros Hx. apply length_delete. by exists x. Qed.

Lemma length_reorder l s d : length (reorder l s d) = length l.
Proof.
  unfold reorder.
  destruct (in_range l s && in_range l d) eqn:Hr; [| reflexivity].
  destruct (l !! Z.to_nat s) as [x |] eqn:Hx; [| reflexivity].
  rewrite length_insert_at, (length_delete_in_range _ _ _ Hx).
  apply lookup_lt_Some in Hx. lia.
Qed.

(** The moved element sits at the destination index. *)
Lemma reorder_lookup_finish l s d x :
  0 <= s < Z.of_nat (length l) -> 0 <= d < Z.of_nat (length l) ->
  l !! Z.to_nat s = Some x ->
  reorder l s d !! Z.to_nat d = Some x.
Proof.
  intros Hs Hd Hx. rewrite (reorder_in_range _ _ _ _ Hs Hd Hx).
  apply lookup_insert_at.
  rewrite (length_delete_in_range _ _ _ Hx). lia.
Qed.

(** The other elements keep their relative order: without the moved element
    the list is the same before and after. *)
Lemma reorder_delete_finish l s d :
  0 <= s < Z.of_nat (length l) -> 0 <= d < Z.of_nat (length l) ->
  delete (Z.to_nat d) (reorder l s d) = delete (Z.to_nat s) l.
Proof.
  intros Hs Hd.
  destruct (at_index_in_range l s Hs) as (x & _ & Hx).
  rewrite (reorder_in_range _ _ _ _ Hs Hd Hx).
  apply delete_insert_at.
  rewrite (length_delete_in_range _ _ _ Hx). lia.
Qed.

Lemma reorder_inverse l s d :
  0 <= s < Z.of_nat (length l) -> 0 <= d < Z.of_nat (length l) ->
  reorder (reorder l s d) d s = l.
Proof.
  intros Hs Hd.
  destruct (at_index_in_range l s Hs) as (x & _ & Hx).
  pose proof (reorder_lookup_finish _ _ _ _ Hs Hd Hx) as Hfin.
  rewrite (reorder_in_range (reorder l s d) d s x);
    rewrite ?length_reorder; try assumption.
  rewrite (reorder_delete_finish _ _ _ Hs Hd).
  by apply insert_at_delete.
Qed.

End Move.

(** C6: for a list and two distinct indices s and d in range, the move from
    s to d followed by the move from d to s gives back the original list. *)
Theorem reorder_round_trip {A : Type} (l : list A) (s d : Z) :
  0 <= s < Z.of_nat (length l) -> 0 <= d < Z.of_nat (length l) -> s <> d ->
  reorder (reorder l s d) d s = l.
Proof.
  intros Hs Hd _. by apply reorder_inverse.
Qed.

Lemma reorder_round_trip_witness :
  reorder (reorder ["A"%string; "B"%string; "C"%string] 0 2) 2 0
  = ["A"%string; "B"%string; "C"%string].
Proof.
  apply (reorder_round_trip ["A"%string; "B"%string; "C"%string] 0 2); cbn; lia.
Defined.

(** ** The state update of [reorderItem] *)

(** Every pair of distinct indices is the outcome of some drop: on the
    target at the destination index, on its bottom edge when moving down
    the list and on its top edge when moving up. *)
Lemma getReorderDestinationIndex_onto (s d : Z) :
  s <> d ->
  getReorderDestinationIndex s (Some (if s <? d then EdgeBottom else EdgeTop)) d = d.
Proof.
  intros Hsd. destruct (Z.ltb_spec s d).
  - rewrite getReorderDestinationIndex_after. destruct (Z.leb_spec s d); lia.
  - rewrite getReorderDestinationIndex_before. destruct (Z.ltb_spec s d); lia.
Qed.

(** Decide the guard [finishIndex === startIndex] of [reorderItem]. *)
Ltac reorderItem_guard :=
  unfold Full.reorderItem, Plain.reorderItem;
  match goal with
  | |- context [?finishIndex =? ?startIndex] =>
      destruct (Z.eqb_spec finishIndex startIndex)
  end;
  first [reflexivity | contradiction | congruence].

Lemma Full_reorderItem_dispatch (s t : Z) (e : option Edge) :
  getReorderDestinationIndex s e t <> s ->
  Full.reorderItem s t e
  = SetState (Full.reorderItem_updater s (getReorderDestinationIndex s e t)).
Proof. intros Hne. reorderItem_guard. Qed.

Lemma Plain_reorderItem_dispatch (s t : Z) (e : option Edge) :
  getReorderDestinationIndex s e t <> s ->
  Plain.reorderItem s t e
  = SetState (Plain.reorderItem_updater s (getReorderDestinationIndex s e t)).
Proof. intros Hne. reorderItem_guard. Qed.

Lemma Full_reorderItem_skip (s t : Z) (e : option Edge) :
  getReorderDestinationIndex s e t = s -> Full.reorderItem s t e = NoUpdate.
Proof. intros He. reorderItem_guard. Qed.

Lemma Plain_reorderItem_skip (s t : Z) (e : option Edge) :
  getReorderDestinationIndex s e t = s -> Plain.reorderItem s t e = NoUpdate.
Proof. intros He. reorderItem_guard. Qed.

(** C2, as amended: for a list and a valid pair of distinct indices, the one
    state produced by the update of reorderItem holds the list with the item
    at sourceIndex taken out and put back at destinationIndex, the other
    items in their order, and a move record whose item is the item that was
    at sourceIndex; in the full component the record also holds
    previousIndex = sourceIndex, currentIndex = destinationIndex and the
    length of the list, in the plain component it holds the item only. *)
Theorem reorderItem_update_move (l : list Item) (s d : Z)
    (lastF : option Full.MoveRecord) (lastP : option Plain.LastMoved) :
  valid_move l s d ->
  exists x,
    l !! Z.to_nat s = Some x
    /\ Full.reorderItem s d (Some (if s <? d then EdgeBottom else EdgeTop))
       = SetState (Full.reorderItem_updater s d)
    /\ Plain.reorderItem s d (Some (if s <? d then EdgeBottom else EdgeTop))
       = SetState (Plain.reorderItem_updater s d)
    /\ let stF := Full.reorderItem_updater s d (Full.mkListState l lastF) in
       let stP := Plain.reorderItem_updater s d (Plain.mkListState l lastP) in
       Full.items stF = insert_at (Z.to_nat d) x (delete (Z.to_nat s) l)
       /\ Plain.items stP = Full.items stF
       /\ length (Full.items stF) = length l
       /\ Full.items stF !! Z.to_nat d = Some x
       /\ delete (Z.to_nat d) (Full.items stF) = delete (Z.to_nat s) l
       /\ Full_view <$> Full.lastCardMoved stF
          = Some (mkMoveView (Some x) (Some s) (Some d) (Some (Z.of_nat (length l))))
       /\ Plain_view <$> Plain.lastMoved stP = Some (mkMoveView (Some x) None None None).
Proof.
  intros (Hs & Hd & Hsd).
  destruct (at_index_in_range l s Hs) as (x & Hat & Hx).
  exists x. split; [exact Hx |].
  pose proof (getReorderDestinationIndex_onto s d Hsd) as Honto.
  split.
  { rewrite Full_reorderItem_dispatch; rewrite Honto; [reflexivity | lia]. }
  split.
  { rewrite Plain_reorderItem_dispatch; rewrite Honto; [reflexivity | lia]. }
  cbn.
  repeat split.
  - by apply reorder_in_range.
  - apply length_reorder.
  - by apply reorder_lookup_finish.
  - by apply reorder_delete_finish.
  - unfold Full_view; cbn. by rewrite Hat.
  - unfold Plain_view; cbn. by rewrite Hat.
Qed.

Lemma reorderItem_update_move_witness :
  exists x,
    defaultItems !! Z.to_nat 0 = Some x
    /\ Full.reorderItem 0 2 (Some EdgeBottom) = SetState (Full.reorderItem_updater 0 2)
    /\ Plain.reorderItem 0 2 (Some EdgeBottom) = SetState (Plain.reorderItem_updater 0 2)
    /\ let stF := Full.reorderItem_updater 0 2 (Full.mkListState defaultItems None) in
       let stP := Plain.reorderItem_updater 0 2 (Plain.mkListState defaultItems None) in
       Full.items stF = insert_at (Z.to_nat 2) x (delete (Z.to_nat 0) defaultItems)
       /\ Plain.items stP = Full.items stF
       /\ length (Full.items stF) = length defaultItems
       /\ Full.items stF !! Z.to_nat 2 = Some x
       /\ delete (Z.to_nat 2) (Full.items stF) = delete (Z.to_nat 0) defaultItems
       /\ Full_view <$> Full.lastCardMoved stF
          = Some (mkMoveView (Some x) (Some 0) (Some 2)
                    (Some (Z.of_nat (length defaultItems))))
       /\ Plain_view <$> Plain.lastMoved stP = Some (mkMoveView (Some x) None None None).
Proof.
  apply (reorderItem_update_move defaultItems 0 2 None None).
  unfold valid_move; cbn; lia.
Defined.

(** C2 as stated fails on the plain component: after moving the first of
    the three default items behind the last, the list is as specified, but
    the move record has the item and nothing else, so previousIndex,
    currentIndex and totalCount do not read as 0, 2 and 3. *)
Lemma Plain_move_record_item_only :
  let st := Plain.reorderItem_updater 0 2 (Plain.mkListState defaultItems None) in
  valid_move defaultItems 0 2
  /\ Plain.items st = reorder defaultItems 0 2
  /\ Plain_view <$> Plain.lastMoved st
     = Some (mkMoveView (defaultItems !! 0%nat) None None None)
  /\ Plain_view <$> Plain.lastMoved st
     <> Some (mkMoveView (defaultItems !! 0%nat) (Some 0) (Some 2) (Some 3)).
Proof.
  cbn. repeat split; try (unfold valid_move; cbn; lia); discriminate.
Qed.

(** C3: when the computed destination equals startIndex, and in particular
    when an item is dropped on itself with any edge, reorderItem sets no
    state: the list and the last move record are what they were and the
    post-drop effect does nothing. *)
Theorem reorderItem_no_change (s t : Z) (e : option Edge)
    (stF : Full.ListState) (stP : Plain.ListState) (registry : Registry.t) :
  getReorderDestinationIndex s e t = s \/ t = s ->
  (Full.reorderItem s t e = NoUpdate
   /\ commit (Full.reorderItem s t e) stF = stF
   /\ Full.effectAfter (Full.reorderItem s t e) stF registry = Returned [])
  /\ (Plain.reorderItem s t e = NoUpdate
      /\ commit (Plain.reorderItem s t e) stP = stP
      /\ Plain.effectAfter (Plain.reorderItem s t e) stP registry = Returned []).
Proof.
  intros H.
  assert (He : getReorderDestinationIndex s e t = s).
  { destruct H as [H | ->]; [exact H | apply getReorderDestinationIndex_self]. }
  rewrite (Full_reorderItem_skip _ _ _ He), (Plain_reorderItem_skip _ _ _ He).
  repeat split.
Qed.

Lemma reorderItem_no_change_witness :
  (Full.reorderItem 1 1 (Some EdgeTop) = NoUpdate
   /\ commit (Full.reorderItem 1 1 (Some EdgeTop)) (Full.mkListState defaultItems None)
      = Full.mkListState defaultItems None
   /\ Full.effectAfter (Full.reorderItem 1 1 (Some EdgeTop))
        (Full.mkListState defaultItems None) Registry.empty = Returned [])
  /\ (Plain.reorderItem 1 1 (Some EdgeTop) = NoUpdate
      /\ commit (Plain.reorderItem 1 1 (Some EdgeTop)) (Plain.mkListState defaultItems None)
         = Plain.mkListState defaultItems None
      /\ Plain.effectAfter (Plain.reorderItem 1 1 (Some EdgeTop))
           (Plain.mkListState defaultItems None) Registry.empty = Returned []).
Proof.
  apply (reorderItem_no_change 1 1 (Some EdgeTop)).
  right. reflexivity.
Defined.

(** C5, as amended: reorderItem checks no index.  Whenever the computed
    destination differs from startIndex, inside the list or not, it sets the
    state with the update whose move record holds listState.items[startIndex]
    (undefined outside the list), startIndex, the destination and the length
    of the list; no InvalidIndex condition is signalled. *)
Theorem reorderItem_unchecked (s t : Z) (e : option Edge) (st : Full.ListState) :
  getReorderDestinationIndex s e t <> s ->
  Full.reorderItem s t e
  = SetState (Full.reorderItem_updater s (getReorderDestinationIndex s e t))
  /\ Full.lastCardMoved (commit (Full.reorderItem s t e) st)
     = Some (Full.mkMoveRecord (at_index (Full.items st) s) s
               (getReorderDestinationIndex s e t)
               (Z.of_nat (length (Full.items st)))).
Proof.
  intros Hne. rewrite (Full_reorderItem_dispatch _ _ _ Hne).
  split; reflexivity.
Qed.

Lemma reorderItem_unchecked_witness :
  Full.reorderItem 5 0 (Some EdgeTop)
  = SetState (Full.reorderItem_updater 5 (getReorderDestinationIndex 5 (Some EdgeTop) 0))
  /\ Full.lastCardMoved
       (commit (Full.reorderItem 5 0 (Some EdgeTop)) (Full.mkListState defaultItems None))
     = Some (Full.mkMoveRecord
               (at_index (Full.items (Full.mkListState defaultItems None)) 5) 5
               (getReorderDestinationIndex 5 (Some EdgeTop) 0)
               (Z.of_nat (length (Full.items (Full.mkListState defaultItems None))))).
Proof.
  apply (reorderItem_unchecked 5 0 (Some EdgeTop)).
  vm_compute. discriminate.
Defined.

(** C5 as stated fails: with startIndex 5 on the three default items the
    preconditions of the move do not hold, yet reorderItem sets the state,
    and the state it installs has a move record without an item, from
    position 5 of 3. *)
Lemma reorderItem_no_InvalidIndex :
  let st := Full.mkListState defaultItems None in
  let finishIndex := getReorderDestinationIndex 5 (Some EdgeTop) 0 in
  ~ valid_move (Full.items st) 5 finishIndex
  /\ Full.reorderItem 5 0 (Some EdgeTop) <> NoUpdate
  /\ Full.lastCardMoved (commit (Full.reorderItem 5 0 (Some EdgeTop)) st)
     = Some (Full.mkMoveRecord None 5 0 3).
Proof.
  cbn. repeat split.
  - unfold valid_move; cbn. lia.
  - discriminate.
Qed.


(** ** The monitor's drop handler *)

Lemma findIndex_from_bounds {A : Type} (p : A -> bool) (k : Z) (l : list A) :
  0 <= k ->
  findIndex_from p k l = -1
  \/ k <= findIndex_from p k l < k + Z.of_nat (length l).
Proof.
  revert k. induction l as [| x l IH]; intros k Hk; cbn [findIndex_from].
  - left. reflexivity.
  - destruct (p x).
    + right. cbn [length]. lia.
    + destruct (IH (k + 1)) as [-> | Hr]; [lia | by left |].
      right. cbn [length]. lia.
Qed.

Lemma findIndex_from_negative_iff {A : Type} (p : A -> bool) (k : Z) (l : list A) :
  0 <= k ->
  findIndex_from p k l < 0 <-> Forall (fun x => p x = false) l.
Proof.
  revert k. induction l as [| x l IH]; intros k Hk; cbn [findIndex_from].
  - split; [constructor | lia].
  - destruct (p x) eqn:Hp.
    + split; [lia |]. intros HF. inversion HF; congruence.
    + rewrite IH by lia. split.
      * intros HF. by constructor.
      * intros HF. by inversion HF.
Qed.

(** [findIndex] is negative exactly when no element satisfies the test. *)
Lemma findIndex_negative_iff {A : Type} (p : A -> bool) (l : list A) :
  findIndex p l < 0 <-> Forall (fun x => p x = false) l.
Proof. apply findIndex_from_negative_iff. lia. Qed.

(** Inside the list the result of [findIndex] is an index of the list. *)
Lemma findIndex_in_range {A : Type} (p : A -> bool) (l : list A) :
  ~ findIndex p l < 0 -> 0 <= findIndex p l < Z.of_nat (length l).
Proof.
  intros Hn. unfold findIndex in *.
  destruct (findIndex_from_bounds p 0 l) as [Hr | Hr]; lia.
Qed.

Lemma findIndex_id_absent (items0 : list Item) (itemId : string) :
  itemId ∉ id <$> items0 ->
  findIndex (fun it => String.eqb (id it) itemId) items0 < 0.
Proof.
  intros Hnot. apply findIndex_negative_iff, Forall_forall.
  intros x Hx. apply String.eqb_neq. intros Heq. apply Hnot.
  apply list_elem_of_fmap. exists x. split; [by symmetry | exact Hx].
Qed.

Lemma Full_isItemData_asItemData (data : Full.Data) :
  Full.isItemData data = true <-> is_Some (Full.asItemData data).
Proof.
  destruct data; cbn; split; intros H;
    try done; try (by eexists); try (by destruct H).
Qed.

Lemma Plain_isItemData_asItemData (data : Plain.Data) :
  Plain.isItemData data = true <-> is_Some (Plain.asItemData data).
Proof.
  destruct data as [[it |] [i |] [s |] e]; cbn; split; intros H;
    try done; try (by eexists); try (by destruct H).
Qed.

(** Walk [onDrop] down to the test [indexOfTarget < 0] for a target whose
    id is not in the list. *)
Ltac onDrop_unresolved Hhead Htarget Hnot :=
  unfold Full.onDrop, Plain.onDrop; rewrite Hhead, Htarget;
  destruct (negb _ || negb _); [reflexivity |];
  match goal with
  | |- context [match ?src with Some _ => _ | None => _ end] =>
      destruct src; [| reflexivity]
  end;
  let Hneg := fresh "Hneg" in
  pose proof (findIndex_id_absent _ _ Hnot) as Hneg;
  apply Z.ltb_lt in Hneg; rewrite Hneg; reflexivity.

Lemma Full_onDrop_unresolved (items0 : list Item) (ev : DropEvent Full.Data)
    (targetData : Full.Data) (targetItem : ItemData) :
  head (dropTargets ev) = Some targetData ->
  Full.asItemData targetData = Some targetItem ->
  id (item targetItem) ∉ id <$> items0 ->
  Full.onDrop items0 ev = NoUpdate.
Proof. intros Hhead Htarget Hnot. onDrop_unresolved Hhead Htarget Hnot. Qed.

Lemma Plain_onDrop_unresolved (items0 : list Item) (ev : DropEvent Plain.Data)
    (targetData : Plain.Data) (targetItem : ItemData) :
  head (dropTargets ev) = Some targetData ->
  Plain.asItemData targetData = Some targetItem ->
  id (item targetItem) ∉ id <$> items0 ->
  Plain.onDrop items0 ev = NoUpdate.
Proof. intros Hhead Htarget Hnot. onDrop_unresolved Hhead Htarget Hnot. Qed.

(** A target that is found is found inside the list, so [reorderItem] is
    called with a target index in range. *)
Lemma findIndex_id_present (items0 : list Item) (itemId : string) :
  itemId ∈ id <$> items0 ->
  0 <= findIndex (fun it => String.eqb (id it) itemId) items0
    < Z.of_nat (length items0).
Proof.
  intros Hin. apply findIndex_in_range. rewrite findIndex_negative_iff.
  intros HF. apply list_elem_of_fmap in Hin as (x & -> & Hx).
  rewrite Forall_forall in HF. specialize (HF x Hx).
  by rewrite String.eqb_refl in HF.
Qed.

(** C4: when the id of the target item of a drop does not occur in the
    current list, so that findIndex is negative, the drop handler returns
    without setting any state: the list and the move record are unchanged,
    the post-drop effect does nothing, and nothing is thrown. *)
Theorem onDrop_unresolved_target (items0 : list Item) (targetItem : ItemData)
    (evF : DropEvent Full.Data) (targetF : Full.Data) (stF : Full.ListState)
    (evP : DropEvent Plain.Data) (targetP : Plain.Data) (stP : Plain.ListState)
    (registry : Registry.t) :
  id (item targetItem) ∉ id <$> items0 ->
  head (dropTargets evF) = Some targetF -> Full.asItemData targetF = Some targetItem ->
  head (dropTargets evP) = Some targetP -> Plain.asItemData targetP = Some targetItem ->
  findIndex (fun it => String.eqb (id it) (id (item targetItem))) items0 < 0
  /\ (Full.onDrop items0 evF = NoUpdate
      /\ commit (Full.onDrop items0 evF) stF = stF
      /\ Full.effectAfter (Full.onDrop items0 evF) stF registry = Returned [])
  /\ (Plain.onDrop items0 evP = NoUpdate
      /\ commit (Plain.onDrop items0 evP) stP = stP
      /\ Plain.effectAfter (Plain.onDrop items0 evP) stP registry = Returned []).
Proof.
  intros Hnot HhF HtF HhP HtP.
  rewrite (Full_onDrop_unresolved _ _ _ _ HhF HtF Hnot).
  rewrite (Plain_onDrop_unresolved _ _ _ _ HhP HtP Hnot).
  split; [by apply findIndex_id_absent |]. repeat split.
Qed.

Lemma onDrop_unresolved_target_witness :
  let gone := mkItemData (mkItem "task-9" "Removed during the drag") 0 1%positive in
  let evF := mkDrop (mkSource 7%positive (Full.getItemData (mkItem "task-1" "") 0 1%positive))
               [Full.Tagged gone (Some EdgeTop)] in
  let evP := mkDrop (mkSource 7%positive (Plain.itemData (mkItem "task-1" "") 0 1%positive))
               [Plain.attachClosestEdge (Plain.itemData (item gone) 0 1%positive) EdgeTop] in
  findIndex (fun it => String.eqb (id it) (id (item gone))) defaultItems < 0
  /\ (Full.onDrop defaultItems evF = NoUpdate
      /\ commit (Full.onDrop defaultItems evF) (Full.mkListState defaultItems None)
         = Full.mkListState defaultItems None
      /\ Full.effectAfter (Full.onDrop defaultItems evF)
           (Full.mkListState defaultItems None) Registry.empty = Returned [])
  /\ (Plain.onDrop defaultItems evP = NoUpdate
      /\ commit (Plain.onDrop defaultItems evP) (Plain.mkListState defaultItems None)
         = Plain.mkListState defaultItems None
      /\ Plain.effectAfter (Plain.onDrop defaultItems evP)
           (Plain.mkListState defaultItems None) Registry.empty = Returned []).
Proof.
  intros gone evF evP.
  apply (onDrop_unresolved_target defaultItems gone
           evF (Full.Tagged gone (Some EdgeTop)) (Full.mkListState defaultItems None)
           evP (Plain.attachClosestEdge (Plain.itemData (item gone) 0 1%positive) EdgeTop)
           (Plain.mkListState defaultItems None) Registry.empty);
    try reflexivity.
  apply (bool_decide_unpack _). vm_compute. exact I.
Defined.

(** A resolved drop reaches [reorderItem] with the index found. *)
Example Full_onDrop_scenario_A :
  let evF := mkDrop (mkSource 7%positive
                       (Full.getItemData (mkItem "task-1" "") 0 1%positive))
               [Full.attachClosestEdge
                  (Full.getItemData (mkItem "task-3" "") 2 1%positive) EdgeBottom] in
  id <$> Full.items (commit (Full.drop 1%positive defaultItems evF)
                       (Full.mkListState defaultItems None))
  = ["task-2"; "task-3"; "task-1"]%string.
Proof. reflexivity. Qed.

(** ** Drags of other instances and malformed payloads *)

Lemma Full_canMonitor_false (instanceId0 : symbol) (source0 : DragSource Full.Data) :
  Full.isItemData (source_data source0) = false
  \/ instanceId <$> Full.asItemData (source_data source0) <> Some instanceId0 ->
  Full.canMonitor instanceId0 source0 = false.
Proof.
  unfold Full.canMonitor, Full.sameInstance.
  intros [-> | Hinst]; [reflexivity |].
  destruct (Full.asItemData (source_data source0)) as [d |]; cbn in *.
  - destruct (Pos.eqb_spec (instanceId d) instanceId0) as [Heq |]; [congruence |].
    apply andb_false_r.
  - apply andb_false_r.
Qed.

Lemma Plain_canMonitor_false (instanceId0 : symbol) (source0 : DragSource Plain.Data) :
  Plain.isItemData (source_data source0) = false
  \/ Plain.data_instanceId (source_data source0) <> Some instanceId0 ->
  Plain.canMonitor instanceId0 source0 = false.
Proof.
  unfold Plain.canMonitor, Plain.sameInstance.
  intros [-> | Hinst]; [reflexivity |].
  destruct (Plain.data_instanceId (source_data source0)) as [s |].
  - destruct (Pos.eqb_spec s instanceId0) as [Heq |]; [congruence |].
    apply andb_false_r.
  - apply andb_false_r.
Qed.

(** The shape check inside [onDrop] refuses a malformed source by itself. *)
Lemma Full_onDrop_malformed (items0 : list Item) (ev : DropEvent Full.Data) :
  Full.isItemData (source_data (source ev)) = false ->
  Full.onDrop items0 ev = NoUpdate.
Proof.
  intros H. unfold Full.onDrop. rewrite H.
  by destruct (head (dropTargets ev)).
Qed.

Lemma Plain_onDrop_malformed (items0 : list Item) (ev : DropEvent Plain.Data) :
  Plain.isItemData (source_data (source ev)) = false ->
  Plain.onDrop items0 ev = NoUpdate.
Proof.
  intros H. unfold Plain.onDrop. rewrite H.
  by destruct (head (dropTargets ev)).
Qed.

(** C10: a drop whose source data fails the item-data shape check, or does
    not carry the instanceId of this list, is refused by canMonitor and by
    every canDrop of the list, and the drop delivered through the monitor
    sets no state: the list of this instance is unchanged. *)
Theorem drop_foreign_source (instanceId0 : symbol) (items0 : list Item)
    (evF : DropEvent Full.Data) (stF : Full.ListState)
    (evP : DropEvent Plain.Data) (stP : Plain.ListState) :
  Full.isItemData (source_data (source evF)) = false
  \/ instanceId <$> Full.asItemData (source_data (source evF)) <> Some instanceId0 ->
  Plain.isItemData (source_data (source evP)) = false
  \/ Plain.data_instanceId (source_data (source evP)) <> Some instanceId0 ->
  (Full.canMonitor instanceId0 (source evF) = false
   /\ Full.canDrop instanceId0 (source evF) = false
   /\ Full.drop instanceId0 items0 evF = NoUpdate
   /\ commit (Full.drop instanceId0 items0 evF) stF = stF)
  /\ (Plain.canMonitor instanceId0 (source evP) = false
      /\ Plain.canDrop instanceId0 (source evP) = false
      /\ Plain.drop instanceId0 items0 evP = NoUpdate
      /\ commit (Plain.drop instanceId0 items0 evP) stP = stP).
Proof.
  intros HF HP.
  pose proof (Full_canMonitor_false instanceId0 _ HF) as HmF.
  pose proof (Plain_canMonitor_false instanceId0 _ HP) as HmP.
  unfold Full.drop, Plain.drop, monitorForElements_drop.
  rewrite HmF, HmP. repeat split; assumption.
Qed.

Lemma drop_foreign_source_witness :
  let evF := mkDrop (mkSource 7%positive
                       (Full.getItemData (mkItem "task-1" "") 0 2%positive))
               [Full.attachClosestEdge
                  (Full.getItemData (mkItem "task-3" "") 2 1%positive) EdgeBottom] in
  let evP := mkDrop (mkSource 7%positive (Plain.mkData None (Some 0) (Some 1%positive) None))
               [Plain.attachClosestEdge
                  (Plain.itemData (mkItem "task-3" "") 2 1%positive) EdgeBottom] in
  (Full.canMonitor 1%positive (source evF) = false
   /\ Full.canDrop 1%positive (source evF) = false
   /\ Full.drop 1%positive defaultItems evF = NoUpdate
   /\ commit (Full.drop 1%positive defaultItems evF) (Full.mkListState defaultItems None)
      = Full.mkListState defaultItems None)
  /\ (Plain.canMonitor 1%positive (source evP) = false
      /\ Plain.canDrop 1%positive (source evP) = false
      /\ Plain.drop 1%positive defaultItems evP = NoUpdate
      /\ commit (Plain.drop 1%positive defaultItems evP) (Plain.mkListState defaultItems None)
         = Plain.mkListState defaultItems None).
Proof.
  intros evF evP.
  apply (drop_foreign_source 1%positive defaultItems evF _ evP _).
  - right. cbn. discriminate.
  - left. reflexivity.
Defined.

(** ** The item registry *)

(** C7, as amended: register(id, handle) overwrites the entry for id and
    leaves the other ids alone; the unregister function it returns deletes
    whatever entry is stored under id when it is called, also one stored by
    a later registration of the same id; it never touches the entry of
    another id, changes nothing when id has no entry, and called right
    after its own register leaves lookup(id) not-found. *)
Theorem registry_register_unregister
    (registry later gone : Registry.t) (itemId other : string) (element : HTMLElement) :
  other <> itemId ->
  Registry.getElement itemId gone = None ->
  let registry' := fst (Registry.register itemId element registry) in
  let unregister := snd (Registry.register itemId element registry) in
  Registry.getElement itemId registry' = Some element
  /\ Registry.getElement other registry' = Registry.getElement other registry
  /\ Registry.getElement itemId (unregister later) = None
  /\ Registry.getElement other (unregister later) = Registry.getElement other later
  /\ unregister gone = gone
  /\ Registry.getElement itemId (unregister registry') = None.
Proof.
  intros Hother Hgone. cbn.
  unfold Registry.getElement, Registry.unregister in *.
  repeat split.
  - apply lookup_insert_eq.
  - by apply lookup_insert_ne.
  - apply lookup_delete_eq.
  - by apply lookup_delete_ne.
  - by apply delete_id.
  - apply lookup_delete_eq.
Qed.

Lemma registry_register_unregister_witness :
  let registry : Registry.t := <["task-2"%string := 5%positive]> Registry.empty in
  let later : Registry.t := <["task-1"%string := 9%positive]> registry in
  let registry' := fst (Registry.register "task-1" 4%positive registry) in
  let unregister := snd (Registry.register "task-1" 4%positive registry) in
  Registry.getElement "task-1" registry' = Some 4%positive
  /\ Registry.getElement "task-2" registry' = Registry.getElement "task-2" registry
  /\ Registry.getElement "task-1" (unregister later) = None
  /\ Registry.getElement "task-2" (unregister later) = Registry.getElement "task-2" later
  /\ unregister registry = registry
  /\ Registry.getElement "task-1" (unregister registry') = None.
Proof.
  intros registry later.
  apply (registry_register_unregister registry later registry "task-1" "task-2" 4%positive).
  - discriminate.
  - reflexivity.
Defined.

(** C7 as stated fails: the unregister function of a first registration of
    "task-1", called after a second registration has replaced the entry,
    deletes the entry of the second registration. *)
Lemma unregister_removes_later_registration :
  let r1 := fst (Registry.register "task-1" 1%positive Registry.empty) in
  let unregister1 := snd (Registry.register "task-1" 1%positive Registry.empty) in
  let r2 := fst (Registry.register "task-1" 2%positive r1) in
  Registry.getElement "task-1" r2 = Some 2%positive
  /\ Registry.getElement "task-1" (unregister1 r2) = None
  /\ unregister1 r2 <> r2.
Proof.
  cbn. unfold Registry.getElement, Registry.unregister.
  split; [apply lookup_insert_eq |].
  split; [apply lookup_delete_eq |].
  intros Heq.
  apply (f_equal (fun m : Registry.t => m !! "task-1"%string)) in Heq.
  rewrite lookup_delete_eq, lookup_insert_eq in Heq. discriminate.
Qed.

(** ** The drop indicator *)

(** The full component hides the indicator on the side of a neighbour that
    touches the dragged item, and on the element that is the source. *)
Lemma Full_onDrag_filter (element : HTMLElement) (index0 : Z)
    (self_data : Full.Data) (source0 : DragSource Full.Data)
    (sourceIndex : Z) (shown : option Edge) :
  Full.data_index (source_data source0) = Some sourceIndex ->
  Full.onDrag element index0 self_data source0 = Returned shown ->
  (index0 = sourceIndex - 1 -> shown <> Some EdgeBottom)
  /\ (index0 = sourceIndex + 1 -> shown <> Some EdgeTop)
  /\ (source_element source0 = element -> shown = None).
Proof.
  intros Hidx. unfold Full.onDrag. rewrite Hidx.
  destruct (Pos.eqb_spec (source_element source0) element) as [Hsrc | Hsrc].
  - intros [= <-]. repeat split; intros; congruence.
  - destruct (Z.eqb_spec index0 (sourceIndex - 1)) as [Hb | Hb],
             (Z.eqb_spec index0 (sourceIndex + 1)) as [Ha | Ha];
      try lia;
      destruct (Full.extractClosestEdge self_data) as [[] |]; cbn;
      intros [= <-]; repeat split; intros; (congruence || lia).
Qed.

(** Everywhere else the closest edge is shown as it is. *)
Lemma Full_onDrag_shown (element : HTMLElement) (index0 : Z)
    (self_data : Full.Data) (source0 : DragSource Full.Data) (sourceIndex : Z) :
  source_element source0 <> element ->
  Full.data_index (source_data source0) = Some sourceIndex ->
  ~ (index0 = sourceIndex - 1 /\ Full.extractClosestEdge self_data = Some EdgeBottom) ->
  ~ (index0 = sourceIndex + 1 /\ Full.extractClosestEdge self_data = Some EdgeTop) ->
  Full.onDrag element index0 self_data source0
  = Returned (Full.extractClosestEdge self_data).
Proof.
  intros Hsrc Hidx Hb Ha. unfold Full.onDrag. rewrite Hidx.
  destruct (Pos.eqb_spec (source_element source0) element); [contradiction |].
  destruct (Z.eqb_spec index0 (sourceIndex - 1)),
           (Z.eqb_spec index0 (sourceIndex + 1));
    destruct (Full.extractClosestEdge self_data) as [[] |]; cbn;
    try reflexivity; exfalso; first [lia | by apply Hb | by apply Ha].
Qed.

(** With a numeric source index the handler returns. *)
Lemma Full_onDrag_returns (element : HTMLElement) (index0 : Z)
    (self_data : Full.Data) (source0 : DragSource Full.Data) (sourceIndex : Z) :
  Full.data_index (source_data source0) = Some sourceIndex ->
  exists shown, Full.onDrag element index0 self_data source0 = Returned shown.
Proof.
  intros Hidx. unfold Full.onDrag. rewrite Hidx.
  destruct (Pos.eqb _ _); [by eexists |].
  destruct (_ || _); by eexists.
Qed.

(** C8 at the failing input: in the plain component, while the item at
    index 1 is dragged, the item at index 0 (its upper neighbour) accepts
    the drag and [onDrag] with closest edge 'bottom' sets that edge, so the
    item shows its bottom indicator; the full component clears it there. *)
Theorem Plain_onDrag_neighbour_indicator :
  let instance := 1%positive in
  let element := 10%positive in
  let self_data :=
    Plain.attachClosestEdge (Plain.itemData (mkItem "task-1" "") 0 instance) EdgeBottom in
  let source0 :=
    mkSource 21%positive (Plain.itemData (mkItem "task-2" "") 1 instance) in
  Plain.canDrop instance source0 = true
  /\ Plain.onDrag element self_data source0 = Some EdgeBottom
  /\ Full.onDrag element 0
       (Full.attachClosestEdge (Full.getItemData (mkItem "task-1" "") 0 instance) EdgeBottom)
       (mkSource 21%positive (Full.getItemData (mkItem "task-2" "") 1 instance))
     = Returned None.
Proof. repeat split. Qed.

(** ** The scenarios of the specification *)

(** Scenario A: the first item dropped on the bottom edge of the third. *)
Example scenario_A :
  let st := commit (Full.reorderItem 0 2 (Some EdgeBottom))
              (Full.mkListState defaultItems None) in
  id <$> Full.items st = ["task-2"; "task-3"; "task-1"]%string
  /\ Full.lastCardMoved st = Some (Full.mkMoveRecord (defaultItems !! 0%nat) 0 2 3).
Proof. split; reflexivity. Qed.

(** Scenario B: the third item dropped on the top edge of the first. *)
Example scenario_B :
  let st := commit (Plain.reorderItem 2 0 (Some EdgeTop))
              (Plain.mkListState defaultItems None) in
  id <$> Plain.items st = ["task-3"; "task-1"; "task-2"]%string
  /\ Plain.lastMoved st = Some (Plain.mkLastMoved (defaultItems !! 2%nat)).
Proof. split; reflexivity. Qed.

(** The announcement after scenario A, with every item registered. *)
Example scenario_A_effect :
  let registry : Registry.t :=
    <["task-1"%string := 11%positive]> (<["task-2"%string := 12%positive]> Registry.empty) in
  Full.effectAfter (Full.reorderItem 0 2 (Some EdgeBottom))
    (Full.mkListState defaultItems None) registry
  = Returned [TriggerPostMoveFlash 11%positive;
              Announce "Organize a team-building event" 1 3 3].
Proof. reflexivity. Qed.

(** * Further properties of the code *)

(** ** Which index [onDrop] resolves the target to *)

Lemma findIndex_from_first {A : Type} (p : A -> bool) (k : Z) (l : list A)
    (n : nat) (x : A) :
  l !! n = Some x -> p x = true ->
  (forall i y, (i < n)%nat -> l !! i = Some y -> p y = false) ->
  findIndex_from p k l = k + Z.of_nat n.
Proof.
  revert k n. induction l as [| a l IH]; intros k n Hn Hp Hleast; [done |].
  cbn [findIndex_from]. destruct n as [| n]; cbn in Hn.
  - injection Hn as ->. rewrite Hp. lia.
  - rewrite (Hleast 0%nat a) by (done || lia).
    rewrite (IH (k + 1) n Hn Hp); [lia |].
    intros i y Hi Hy. apply (Hleast (S i) y); [lia | exact Hy].
Qed.

(** A test that some element passes has a first element passing it. *)
Lemma first_passing {A : Type} (p : A -> bool) (l : list A) :
  Exists (fun x => p x = true) l ->
  exists n x, l !! n = Some x /\ p x = true
              /\ forall i y, (i < n)%nat -> l !! i = Some y -> p y = false.
Proof.
  induction l as [| a l IH]; intros Hex; [by inversion Hex |].
  destruct (p a) eqn:Hpa.
  - exists 0%nat, a. repeat split; [done |]. intros i y Hi. lia.
  - destruct IH as (n & x & Hn & Hp & Hleast).
    { inversion Hex; [congruence | assumption]. }
    exists (S n), x. repeat split; [done.. |].
    intros [| i] y Hi Hy; cbn in Hy; [congruence |].
    apply (Hleast i y); [lia | exact Hy].
Qed.

Lemma findIndex_id_first (items0 : list Item) (itemId : string) :
  itemId ∈ id <$> items0 ->
  exists n y,
    items0 !! n = Some y /\ id y = itemId
    /\ (forall i z, (i < n)%nat -> items0 !! i = Some z -> id z <> itemId)
    /\ findIndex (fun it => String.eqb (id it) itemId) items0 = Z.of_nat n.
Proof.
  intros Hin.
  destruct (first_passing (fun it => String.eqb (id it) itemId) items0)
    as (n & y & Hn & Hp & Hleast).
  { apply list_elem_of_fmap in Hin as (x & -> & Hx).
    apply Exists_exists. exists x. split; [exact Hx | apply String.eqb_refl]. }
  exists n, y. repeat split; [exact Hn | by apply String.eqb_eq | |].
  - intros i z Hi Hz. apply String.eqb_neq. by apply (Hleast i z).
  - unfold findIndex. by rewrite (findIndex_from_first _ 0 _ n y Hn Hp Hleast).
Qed.

(** With unique ids the item rendered at [j] is found at [j]. *)
Lemma findIndex_id_NoDup (items0 : list Item) (j : nat) (tj : Item) :
  NoDup (id <$> items0) -> items0 !! j = Some tj ->
  findIndex (fun it => String.eqb (id it) (id tj)) items0 = Z.of_nat j.
Proof.
  intros Hnd Hj. unfold findIndex.
  rewrite (findIndex_from_first _ 0 _ j tj Hj (String.eqb_refl _)); [lia |].
  intros i y Hi Hy. apply String.eqb_neq. intros Heq.
  assert (i = j); [| lia].
  apply (NoDup_lookup _ i j (id tj) Hnd); rewrite list_lookup_fmap.
  - by rewrite Hy, <- Heq.
  - by rewrite Hj.
Qed.

(** The cases of [onDrop], for either component: [guard] relates
    [isItemData] to the narrowing, [skip] and [dispatch] are the two
    outcomes of its [reorderItem]. *)
Ltac onDrop_cases reorderItem guard skip dispatch :=
  let targetData := fresh "targetData" in
  let outer := fresh "outer" in
  let sourceItem := fresh "sourceItem" in
  let targetItem := fresh "targetItem" in
  let Hs := fresh "Hs" in
  let Ht := fresh "Ht" in
  let Ht' := fresh "Ht'" in
  let Hin := fresh "Hin" in
  let Hnot := fresh "Hnot" in
  let Heq := fresh "Heq" in
  let Hne := fresh "Hne" in
  let Hneg := fresh "Hneg" in
  match goal with
  | |- context [head (dropTargets ?ev)] =>
      destruct (dropTargets ev) as [| targetData outer]; cbn [head];
      [split; [done | intros (? & ? & ? & ? & [=] & _)] |]
  end;
  match goal with
  | |- context [match ?src with Some _ => _ | None => _ end] =>
      destruct src as [sourceItem |] eqn:Hs;
      [| destruct (negb _ || negb _);
         (split; [done | intros (? & ? & ? & ? & _ & [=] & _)])]
  end;
  match goal with
  | |- context [match ?tgt with Some _ => _ | None => _ end] =>
      destruct tgt as [targetItem |] eqn:Ht;
      [| destruct (negb _ || negb _);
         (split; [done | intros (? & ? & ? & ? & [= <- <-] & _ & Ht' & _); congruence])]
  end;
  rewrite (proj2 (guard _)) by (by rewrite Hs);
  rewrite (proj2 (guard _)) by (by rewrite Ht);
  cbn [negb orb];
  match goal with
  | |- context [findIndex ?p ?l <? 0] =>
      destruct (decide (id (item targetItem) ∈ id <$> l)) as [Hin | Hnot];
      [ pose proof (findIndex_id_present l _ Hin);
        destruct (Z.ltb_spec (findIndex p l) 0); [lia |];
        match goal with
        | |- context [reorderItem ?s ?t ?e] =>
            destruct (Z.eq_dec (getReorderDestinationIndex s e t) s) as [Heq | Hne];
            [ rewrite (skip _ _ _ Heq); split; [done |];
              intros (? & ? & ? & ? & [= <- <-] & [= <-] & Ht' & _ & Hne & _);
              rewrite Ht in Ht'; injection Ht' as <-; contradiction
            | rewrite (dispatch _ _ _ Hne); split; [| done];
              intros _; by exists targetData, outer, sourceItem, targetItem ]
        end
      | pose proof (findIndex_id_absent l _ Hnot) as Hneg;
        apply Z.ltb_lt in Hneg; rewrite Hneg; split; [done |];
        intros (? & ? & ? & ? & [= <- <-] & _ & Ht' & Hin & _);
        rewrite Ht in Ht'; injection Ht' as <-; contradiction ]
  end.

(** X1: the monitor's onDrop sets the list state exactly when the drop has
    a first drop target, the source and that target are item data, the id
    of the target item occurs in the list, and the destination computed for
    the source index and the index found differs from the source index; the
    update is then the one of reorderItem for these indices.  Further drop
    targets are not looked at. *)
Theorem onDrop_sets_state_iff (items0 : list Item)
    (evF : DropEvent Full.Data) (evP : DropEvent Plain.Data) :
  (Full.onDrop items0 evF <> NoUpdate <->
   exists targetData outer sourceItem targetItem,
     dropTargets evF = targetData :: outer
     /\ Full.asItemData (source_data (source evF)) = Some sourceItem
     /\ Full.asItemData targetData = Some targetItem
     /\ id (item targetItem) ∈ id <$> items0
     /\ let indexOfTarget :=
          findIndex (fun it => String.eqb (id it) (id (item targetItem))) items0 in
        let finishIndex :=
          getReorderDestinationIndex (index sourceItem)
            (Full.extractClosestEdge targetData) indexOfTarget in
        finishIndex <> index sourceItem
        /\ Full.onDrop items0 evF
           = SetState (Full.reorderItem_updater (index sourceItem) finishIndex))
  /\ (Plain.onDrop items0 evP <> NoUpdate <->
      exists targetData outer sourceItem targetItem,
        dropTargets evP = targetData :: outer
        /\ Plain.asItemData (source_data (source evP)) = Some sourceItem
        /\ Plain.asItemData targetData = Some targetItem
        /\ id (item targetItem) ∈ id <$> items0
        /\ let indexOfTarget :=
             findIndex (fun it => String.eqb (id it) (id (item targetItem))) items0 in
           let finishIndex :=
             getReorderDestinationIndex (index sourceItem)
               (Plain.extractClosestEdge targetData) indexOfTarget in
           finishIndex <> index sourceItem
           /\ Plain.onDrop items0 evP
              = SetState (Plain.reorderItem_updater (index sourceItem) finishIndex)).
Proof.
  split.
  - unfold Full.onDrop.
    onDrop_cases Full.reorderItem Full_isItemData_asItemData
      Full_reorderItem_skip Full_reorderItem_dispatch.
  - unfold Plain.onDrop.
    onDrop_cases Plain.reorderItem Plain_isItemData_asItemData
      Plain_reorderItem_skip Plain_reorderItem_dispatch.
Qed.

Lemma Full_onDrop_resolved (items0 : list Item) (handle : HTMLElement)
    (sourceItem targetItem : ItemData) (se : option Edge) (e : option Edge)
    (outer : list Full.Data) :
  ~ findIndex (fun it => String.eqb (id it) (id (item targetItem))) items0 < 0 ->
  Full.onDrop items0
    (mkDrop (mkSource handle (Full.Tagged sourceItem se))
       (Full.Tagged targetItem e :: outer))
  = Full.reorderItem (index sourceItem)
      (findIndex (fun it => String.eqb (id it) (id (item targetItem))) items0) e.
Proof.
  intros Hge. unfold Full.onDrop; cbn.
  destruct (Z.ltb_spec
    (findIndex (fun it => String.eqb (id it) (id (item targetItem))) items0) 0);
    [contradiction | reflexivity].
Qed.

Lemma Plain_onDrop_resolved (items0 : list Item) (handle : HTMLElement)
    (sourceItem targetItem : ItemData) (se : option Edge) (e : option Edge)
    (outer : list Plain.Data) :
  ~ findIndex (fun it => String.eqb (id it) (id (item targetItem))) items0 < 0 ->
  Plain.onDrop items0
    (mkDrop
       (mkSource handle
          (Plain.mkData (Some (item sourceItem)) (Some (index sourceItem))
             (Some (instanceId sourceItem)) se))
       (Plain.mkData (Some (item targetItem)) (Some (index targetItem))
          (Some (instanceId targetItem)) e :: outer))
  = Plain.reorderItem (index sourceItem)
      (findIndex (fun it => String.eqb (id it) (id (item targetItem))) items0) e.
Proof.
  intros Hge. unfold Plain.onDrop; cbn.
  destruct (Z.ltb_spec
    (findIndex (fun it => String.eqb (id it) (id (item targetItem))) items0) 0);
    [contradiction | reflexivity].
Qed.

(** X2: onDrop takes the source position from the index carried by the
    drag and looks the target up by id: reorderItem is called with the
    source index of the payload, whatever it is, and with the position of
    the first item of the current list that has the id of the target item,
    which need not be the position the target was rendered at. *)
Theorem onDrop_target_first_occurrence (items0 : list Item) (handle : HTMLElement)
    (sourceItem targetItem : ItemData) (e : Edge)
    (outerF : list Full.Data) (outerP : list Plain.Data) :
  id (item targetItem) ∈ id <$> items0 ->
  exists n y,
    items0 !! n = Some y /\ id y = id (item targetItem)
    /\ (forall i z, (i < n)%nat -> items0 !! i = Some z -> id z <> id (item targetItem))
    /\ Full.onDrop items0
         (mkDrop (mkSource handle (Full.Tagged sourceItem None))
            (Full.attachClosestEdge (Full.Tagged targetItem None) e :: outerF))
       = Full.reorderItem (index sourceItem) (Z.of_nat n) (Some e)
    /\ Plain.onDrop items0
         (mkDrop
            (mkSource handle
               (Plain.itemData (item sourceItem) (index sourceItem)
                  (instanceId sourceItem)))
            (Plain.attachClosestEdge
               (Plain.itemData (item targetItem) (index targetItem)
                  (instanceId targetItem)) e :: outerP))
       = Plain.reorderItem (index sourceItem) (Z.of_nat n) (Some e).
Proof.
  intros Hin.
  destruct (findIndex_id_first items0 _ Hin) as (n & y & Hn & Hy & Hleast & Hfind).
  exists n, y. repeat split; try assumption.
  - cbn [Full.attachClosestEdge]. rewrite Full_onDrop_resolved; rewrite Hfind; [done | lia].
  - rewrite <- Hfind.
    apply (Plain_onDrop_resolved items0 handle sourceItem targetItem None (Some e)).
    lia.
Qed.

Lemma onDrop_target_first_occurrence_witness :
  let twice := [mkItem "a" "first"; mkItem "b" "second"; mkItem "a" "third"] in
  let sourceItem := mkItemData (mkItem "b" "second") 1 1%positive in
  let targetItem := mkItemData (mkItem "a" "third") 2 1%positive in
  exists n y,
    twice !! n = Some y /\ id y = id (item targetItem)
    /\ (forall i z, (i < n)%nat -> twice !! i = Some z -> id z <> id (item targetItem))
    /\ Full.onDrop twice
         (mkDrop (mkSource 7%positive (Full.Tagged sourceItem None))
            (Full.attachClosestEdge (Full.Tagged targetItem None) EdgeBottom :: []))
       = Full.reorderItem (index sourceItem) (Z.of_nat n) (Some EdgeBottom)
    /\ Plain.onDrop twice
         (mkDrop
            (mkSource 7%positive
               (Plain.itemData (item sourceItem) (index sourceItem)
                  (instanceId sourceItem)))
            (Plain.attachClosestEdge
               (Plain.itemData (item targetItem) (index targetItem)
                  (instanceId targetItem)) EdgeBottom :: []))
       = Plain.reorderItem (index sourceItem) (Z.of_nat n) (Some EdgeBottom).
Proof.
  intros twice sourceItem targetItem.
  apply (onDrop_target_first_occurrence twice 7%positive sourceItem targetItem
           EdgeBottom [] []).
  apply (bool_decide_unpack _). vm_compute. exact I.
Defined.

Lemma Full_canMonitor_own (instanceId0 : symbol) (handle : HTMLElement)
    (it : Item) (i : nat) (e : option Edge) :
  Full.canMonitor instanceId0
    (mkSource handle (Full.Tagged (mkItemData it (Z.of_nat i) instanceId0) e)) = true.
Proof. unfold Full.canMonitor, Full.sameInstance; cbn. by rewrite Pos.eqb_refl. Qed.

Lemma Plain_canMonitor_own (instanceId0 : symbol) (handle : HTMLElement)
    (it : Item) (i : nat) (e : option Edge) :
  Plain.canMonitor instanceId0
    (mkSource handle
       (Plain.mkData (Some it) (Some (Z.of_nat i)) (Some instanceId0) e)) = true.
Proof. unfold Plain.canMonitor, Plain.sameInstance; cbn. by rewrite Pos.eqb_refl. Qed.

Lemma Full_onDrop_rendered (instanceId0 : symbol) (items0 : list Item)
    (handle : HTMLElement) (si tj : Item) (i j : nat) (e : Edge)
    (outer : list Full.Data) :
  NoDup (id <$> items0) -> items0 !! j = Some tj ->
  Full.onDrop items0 (Full_gesture instanceId0 handle si i tj j e outer)
  = Full.reorderItem (Z.of_nat i) (Z.of_nat j) (Some e).
Proof.
  intros Hnd Hj. rewrite <- (findIndex_id_NoDup items0 j tj Hnd Hj).
  apply (Full_onDrop_resolved items0 handle
           (mkItemData si (Z.of_nat i) instanceId0)
           (mkItemData tj (Z.of_nat j) instanceId0) None (Some e)).
  cbn [item]. rewrite (findIndex_id_NoDup items0 j tj Hnd Hj). lia.
Qed.

Lemma Plain_onDrop_rendered (instanceId0 : symbol) (items0 : list Item)
    (handle : HTMLElement) (si tj : Item) (i j : nat) (e : Edge)
    (outer : list Plain.Data) :
  NoDup (id <$> items0) -> items0 !! j = Some tj ->
  Plain.onDrop items0 (Plain_gesture instanceId0 handle si i tj j e outer)
  = Plain.reorderItem (Z.of_nat i) (Z.of_nat j) (Some e).
Proof.
  intros Hnd Hj. rewrite <- (findIndex_id_NoDup items0 j tj Hnd Hj).
  apply (Plain_onDrop_resolved items0 handle
           (mkItemData si (Z.of_nat i) instanceId0)
           (mkItemData tj (Z.of_nat j) instanceId0) None (Some e)).
  cbn [item]. rewrite (findIndex_id_NoDup items0 j tj Hnd Hj). lia.
Qed.

Lemma Full_drop_rendered (instanceId0 : symbol) (items0 : list Item)
    (handle : HTMLElement) (si tj : Item) (i j : nat) (e : Edge)
    (outer : list Full.Data) :
  NoDup (id <$> items0) -> items0 !! j = Some tj ->
  Full.drop instanceId0 items0 (Full_gesture instanceId0 handle si i tj j e outer)
  = Full.reorderItem (Z.of_nat i) (Z.of_nat j) (Some e).
Proof.
  intros Hnd Hj. unfold Full.drop, monitorForElements_drop.
  change (source (Full_gesture instanceId0 handle si i tj j e outer))
    with (mkSource handle (Full.Tagged (mkItemData si (Z.of_nat i) instanceId0) None)).
  rewrite Full_canMonitor_own. by apply Full_onDrop_rendered.
Qed.

Lemma Plain_drop_rendered (instanceId0 : symbol) (items0 : list Item)
    (handle : HTMLElement) (si tj : Item) (i j : nat) (e : Edge)
    (outer : list Plain.Data) :
  NoDup (id <$> items0) -> items0 !! j = Some tj ->
  Plain.drop instanceId0 items0 (Plain_gesture instanceId0 handle si i tj j e outer)
  = Plain.reorderItem (Z.of_nat i) (Z.of_nat j) (Some e).
Proof.
  intros Hnd Hj. unfold Plain.drop, monitorForElements_drop.
  change (source (Plain_gesture instanceId0 handle si i tj j e outer))
    with (mkSource handle
            (Plain.mkData (Some si) (Some (Z.of_nat i)) (Some instanceId0) None)).
  rewrite Plain_canMonitor_own. by apply Plain_onDrop_rendered.
Qed.

(** X3: when the ids of the list are unique, a drop of the item rendered at
    position i on the item rendered at position j with edge e is delivered
    by the monitor of the same instance as reorderItem(i, j, e): the gate
    lets it pass and the lookup by id finds j. *)
Theorem drop_between_rendered_items (instanceId0 : symbol) (items0 : list Item)
    (handle : HTMLElement) (si tj : Item) (i j : nat) (e : Edge)
    (outerF : list Full.Data) (outerP : list Plain.Data) :
  NoDup (id <$> items0) ->
  items0 !! i = Some si -> items0 !! j = Some tj ->
  Full.drop instanceId0 items0 (Full_gesture instanceId0 handle si i tj j e outerF)
  = Full.reorderItem (Z.of_nat i) (Z.of_nat j) (Some e)
  /\ Plain.drop instanceId0 items0 (Plain_gesture instanceId0 handle si i tj j e outerP)
     = Plain.reorderItem (Z.of_nat i) (Z.of_nat j) (Some e).
Proof.
  intros Hnd _ Hj. split.
  - by apply Full_drop_rendered.
  - by apply Plain_drop_rendered.
Qed.

Lemma NoDup_defaultItems : NoDup (id <$> defaultItems).
Proof. apply (bool_decide_unpack _). vm_compute. exact I. Qed.

Lemma drop_between_rendered_items_witness :
  Full.drop 1%positive defaultItems
    (Full_gesture 1%positive 7%positive (mkItem "task-1" "Organize a team-building event")
       0 (mkItem "task-3" "Update company website content") 2 EdgeBottom [])
  = Full.reorderItem (Z.of_nat 0) (Z.of_nat 2) (Some EdgeBottom)
  /\ Plain.drop 1%positive defaultItems
       (Plain_gesture 1%positive 7%positive
          (mkItem "task-1" "Organize a team-building event")
          0 (mkItem "task-3" "Update company website content") 2 EdgeBottom [])
     = Plain.reorderItem (Z.of_nat 0) (Z.of_nat 2) (Some EdgeBottom).
Proof.
  apply (drop_between_rendered_items 1%positive defaultItems 7%positive
           (mkItem "task-1" "Organize a team-building event")
           (mkItem "task-3" "Update company website content") 0 2 EdgeBottom [] []).
  - apply (bool_decide_unpack _). vm_compute. exact I.
  - reflexivity.
  - reflexivity.
Defined.

(** X4: the instance check is what keeps two lists apart.  Two instances
    start from the same items, so for a drop between two items rendered by
    instance a that would move the item, the onDrop of another instance b
    on its own list with the same ids would set its state; but canMonitor
    and canDrop of b refuse the source, and the drop delivered through the
    monitor of b sets nothing. *)
Theorem other_instance_is_kept_apart (a b : symbol) (items0 : list Item)
    (handle : HTMLElement) (si tj : Item) (i j : nat) (e : Edge)
    (outerF : list Full.Data) (outerP : list Plain.Data) :
  a <> b ->
  NoDup (id <$> items0) -> items0 !! j = Some tj ->
  getReorderDestinationIndex (Z.of_nat i) (Some e) (Z.of_nat j) <> Z.of_nat i ->
  (Full.onDrop items0 (Full_gesture a handle si i tj j e outerF) <> NoUpdate
   /\ Full.canMonitor b (source (Full_gesture a handle si i tj j e outerF)) = false
   /\ Full.canDrop b (source (Full_gesture a handle si i tj j e outerF)) = false
   /\ Full.drop b items0 (Full_gesture a handle si i tj j e outerF) = NoUpdate)
  /\ (Plain.onDrop items0 (Plain_gesture a handle si i tj j e outerP) <> NoUpdate
      /\ Plain.canMonitor b (source (Plain_gesture a handle si i tj j e outerP)) = false
      /\ Plain.canDrop b (source (Plain_gesture a handle si i tj j e outerP)) = false
      /\ Plain.drop b items0 (Plain_gesture a handle si i tj j e outerP) = NoUpdate).
Proof.
  intros Hab Hnd Hj Hmove.
  assert (HF : Full.canMonitor b (source (Full_gesture a handle si i tj j e outerF))
               = false).
  { apply Full_canMonitor_false. right. cbn. congruence. }
  assert (HP : Plain.canMonitor b (source (Plain_gesture a handle si i tj j e outerP))
               = false).
  { apply Plain_canMonitor_false. right. cbn. congruence. }
  split.
  - rewrite (Full_onDrop_rendered a items0 handle si tj i j e outerF Hnd Hj).
    rewrite (Full_reorderItem_dispatch _ _ _ Hmove).
    unfold Full.drop, monitorForElements_drop. rewrite HF.
    repeat split; done.
  - rewrite (Plain_onDrop_rendered a items0 handle si tj i j e outerP Hnd Hj).
    rewrite (Plain_reorderItem_dispatch _ _ _ Hmove).
    unfold Plain.drop, monitorForElements_drop. rewrite HP.
    repeat split; done.
Qed.

Lemma other_instance_is_kept_apart_witness :
  let si := mkItem "task-1" "Organize a team-building event" in
  let tj := mkItem "task-3" "Update company website content" in
  (Full.onDrop defaultItems
     (Full_gesture 1%positive 7%positive si 0 tj 2 EdgeBottom []) <> NoUpdate
   /\ Full.canMonitor 2%positive
        (source (Full_gesture 1%positive 7%positive si 0 tj 2 EdgeBottom [])) = false
   /\ Full.canDrop 2%positive
        (source (Full_gesture 1%positive 7%positive si 0 tj 2 EdgeBottom [])) = false
   /\ Full.drop 2%positive defaultItems
        (Full_gesture 1%positive 7%positive si 0 tj 2 EdgeBottom []) = NoUpdate)
  /\ (Plain.onDrop defaultItems
        (Plain_gesture 1%positive 7%positive si 0 tj 2 EdgeBottom []) <> NoUpdate
      /\ Plain.canMonitor 2%positive
           (source (Plain_gesture 1%positive 7%positive si 0 tj 2 EdgeBottom [])) = false
      /\ Plain.canDrop 2%positive
           (source (Plain_gesture 1%positive 7%positive si 0 tj 2 EdgeBottom [])) = false
      /\ Plain.drop 2%positive defaultItems
           (Plain_gesture 1%positive 7%positive si 0 tj 2 EdgeBottom []) = NoUpdate).
Proof.
  intros si tj.
  apply (other_instance_is_kept_apart 1%positive 2%positive defaultItems 7%positive
           si tj 0 2 EdgeBottom [] []).
  - discriminate.
  - apply (bool_decide_unpack _). vm_compute. exact I.
  - reflexivity.
  - vm_compute. discriminate.
Defined.

(** ** The registry while list items mount and unmount *)

Lemma registerAll_cons (m : Item * HTMLElement) (mounted : list (Item * HTMLElement))
    (registry : Registry.t) :
  registerAll (m :: mounted) registry
  = registerAll mounted (<[id m.1 := m.2]> registry).
Proof. reflexivity. Qed.

Lemma unregisterAll_cons (m : Item * HTMLElement) (mounted : list (Item * HTMLElement))
    (registry : Registry.t) :
  unregisterAll (m :: mounted) registry
  = unregisterAll mounted (delete (id m.1) registry).
Proof. reflexivity. Qed.

Lemma registerAll_other (mounted : list (Item * HTMLElement)) (registry : Registry.t)
    (itemId : string) :
  itemId ∉ (id ∘ fst) <$> mounted ->
  Registry.getElement itemId (registerAll mounted registry)
  = Registry.getElement itemId registry.
Proof.
  revert registry. induction mounted as [| m mounted IH]; intros registry Hnot; [done |].
  rewrite registerAll_cons, IH.
  - unfold Registry.getElement. apply lookup_insert_ne.
    intros Heq. apply Hnot. rewrite fmap_cons. apply elem_of_cons.
    left. symmetry. exact Heq.
  - intros Hin. apply Hnot. rewrite fmap_cons. apply elem_of_cons. by right.
Qed.

Lemma unregisterAll_lookup (mounted : list (Item * HTMLElement)) (registry : Registry.t)
    (itemId : string) :
  Registry.getElement itemId (unregisterAll mounted registry)
  = if decide (itemId ∈ (id ∘ fst) <$> mounted) then None
    else Registry.getElement itemId registry.
Proof.
  revert registry. induction mounted as [| m mounted IH]; intros registry.
  { rewrite decide_False; [done | by apply not_elem_of_nil]. }
  rewrite unregisterAll_cons, IH, fmap_cons. unfold Registry.getElement.
  destruct (decide (itemId ∈ (id ∘ fst) <$> mounted)) as [Hin | Hnot].
  - rewrite decide_True; [done | apply elem_of_cons; by right].
  - destruct (decide (itemId = id m.1)) as [-> | Hne].
    + rewrite decide_True by (apply elem_of_cons; by left). apply lookup_delete_eq.
    + rewrite decide_False.
      * by apply lookup_delete_ne.
      * intros [Heq | Hin]%elem_of_cons; [by apply Hne | by apply Hnot].
Qed.

(** X5: after the items of a list with unique ids have registered their
    elements, getElement gives for each of them the element it registered,
    and for an id that none of them has what the registry held before. *)
Theorem registerAll_getElement (mounted : list (Item * HTMLElement))
    (registry : Registry.t) (it : Item) (el : HTMLElement) (other : string) :
  NoDup ((id ∘ fst) <$> mounted) ->
  (it, el) ∈ mounted ->
  other ∉ (id ∘ fst) <$> mounted ->
  Registry.getElement (id it) (registerAll mounted registry) = Some el
  /\ Registry.getElement other (registerAll mounted registry)
     = Registry.getElement other registry.
Proof.
  intros Hnd Hin Hother. split; [| by apply registerAll_other].
  clear Hother. revert registry.
  induction mounted as [| m mounted IH]; intros registry; [by apply elem_of_nil in Hin |].
  rewrite fmap_cons in Hnd. apply NoDup_cons in Hnd as [Hfresh Hnd].
  rewrite registerAll_cons.
  apply elem_of_cons in Hin as [<- | Hin].
  - rewrite registerAll_other by exact Hfresh. apply lookup_insert_eq.
  - by apply IH.
Qed.

Lemma registerAll_getElement_witness :
  let mounted := [(mkItem "task-1" "", 11%positive); (mkItem "task-2" "", 12%positive)] in
  Registry.getElement "task-2" (registerAll mounted Registry.empty) = Some 12%positive
  /\ Registry.getElement "task-3" (registerAll mounted Registry.empty)
     = Registry.getElement "task-3" Registry.empty.
Proof.
  intros mounted.
  apply (registerAll_getElement mounted Registry.empty (mkItem "task-2" "") 12%positive
           "task-3").
  - apply (bool_decide_unpack _). vm_compute. exact I.
  - unfold mounted. repeat constructor.
  - apply (bool_decide_unpack _). vm_compute. exact I.
Defined.

(** X6: when none of the ids was registered before, the cleanups of all
    the mounted items, in any multiplicity of ids, give back the registry as
    it was before they registered. *)
Theorem unregisterAll_registerAll (mounted : list (Item * HTMLElement))
    (registry : Registry.t) :
  (forall itemId, itemId ∈ (id ∘ fst) <$> mounted ->
                  Registry.getElement itemId registry = None) ->
  unregisterAll mounted (registerAll mounted registry) = registry.
Proof.
  intros Hfresh. apply map_eq. intros itemId.
  pose proof (unregisterAll_lookup mounted (registerAll mounted registry) itemId) as Hl.
  unfold Registry.getElement in *. rewrite Hl.
  destruct (decide (itemId ∈ (id ∘ fst) <$> mounted)) as [Hin | Hnot].
  - symmetry. by apply Hfresh.
  - by apply registerAll_other.
Qed.

Lemma unregisterAll_registerAll_witness :
  let mounted := [(mkItem "task-1" "", 11%positive); (mkItem "task-1" "", 12%positive)] in
  let registry : Registry.t := <["task-2"%string := 5%positive]> Registry.empty in
  unregisterAll mounted (registerAll mounted registry) = registry.
Proof.
  intros mounted registry.
  apply (unregisterAll_registerAll mounted registry).
  intros itemId Hin. unfold Registry.getElement, registry.
  apply lookup_insert_None. split; [apply lookup_empty |].
  intros <-. revert Hin. apply (bool_decide_unpack _). vm_compute. exact I.
Defined.

(** ** The post-drop effect *)

(** X8: after a dispatched update whose startIndex is inside the list, the
    effect of the full component flashes the element registered under the
    id of the moved item, if there is one, and then announces the label of
    the moved item with the positions startIndex + 1 and destination + 1 and
    the length of the list; the effect of the plain component only flashes,
    under the same condition. *)
Theorem effect_after_move (s t : Z) (e : option Edge) (x : Item)
    (stF : Full.ListState) (stP : Plain.ListState) (registry : Registry.t) :
  getReorderDestinationIndex s e t <> s ->
  at_index (Full.items stF) s = Some x ->
  at_index (Plain.items stP) s = Some x ->
  let flash :=
    match Registry.getElement (id x) registry with
    | Some el => [TriggerPostMoveFlash el]
    | None => []
    end in
  Full.effectAfter (Full.reorderItem s t e) stF registry
  = Returned (flash ++
      [Announce (label x) (s + 1) (getReorderDestinationIndex s e t + 1)
         (Z.of_nat (length (Full.items stF)))])
  /\ Plain.effectAfter (Plain.reorderItem s t e) stP registry = Returned flash.
Proof.
  intros Hne HF HP flash.
  rewrite (Full_reorderItem_dispatch _ _ _ Hne), (Plain_reorderItem_dispatch _ _ _ Hne).
  cbn. rewrite HF, HP. cbn. subst flash.
  split; [reflexivity |]. by destruct (Registry.getElement (id x) registry).
Qed.

Lemma effect_after_move_witness :
  let x := mkItem "task-1" "Organize a team-building event" in
  let registry : Registry.t := <["task-1"%string := 11%positive]> Registry.empty in
  let flash :=
    match Registry.getElement (id x) registry with
    | Some el => [TriggerPostMoveFlash el]
    | None => []
    end in
  Full.effectAfter (Full.reorderItem 0 2 (Some EdgeBottom))
    (Full.mkListState defaultItems None) registry
  = Returned (flash ++
      [Announce (label x) (0 + 1) (getReorderDestinationIndex 0 (Some EdgeBottom) 2 + 1)
         (Z.of_nat (length (Full.items (Full.mkListState defaultItems None))))])
  /\ Plain.effectAfter (Plain.reorderItem 0 2 (Some EdgeBottom))
       (Plain.mkListState defaultItems None) registry = Returned flash.
Proof.
  intros x registry.
  apply (effect_after_move 0 2 (Some EdgeBottom) x
           (Full.mkListState defaultItems None) (Plain.mkListState defaultItems None)
           registry).
  - vm_compute. discriminate.
  - reflexivity.
  - reflexivity.
Defined.

(** ** The indicator filter and the drops that change nothing *)

(** X9: in the full component, for a drop target that is not the dragged
    item and whose closest edge is e, onDrag hides the indicator exactly
    when a drop there would leave the list as it is (the destination
    computed for that target and edge is the source index), and shows e
    exactly when the drop would move the item. *)
Theorem Full_indicator_hidden_iff_no_move (element : HTMLElement) (index0 : Z)
    (self_data : Full.Data) (source0 : DragSource Full.Data)
    (sourceIndex : Z) (e : Edge) :
  source_element source0 <> element ->
  index0 <> sourceIndex ->
  Full.data_index (source_data source0) = Some sourceIndex ->
  Full.extractClosestEdge self_data = Some e ->
  (Full.onDrag element index0 self_data source0 = Returned None
   <-> Full.reorderItem sourceIndex index0 (Some e) = NoUpdate)
  /\ (Full.onDrag element index0 self_data source0 = Returned (Some e)
      <-> Full.reorderItem sourceIndex index0 (Some e) <> NoUpdate).
Proof.
  intros Hsrc Hself Hidx He. unfold Full.onDrag, Full.reorderItem.
  rewrite Hidx, He.
  destruct (Pos.eqb_spec (source_element source0) element); [contradiction |].
  destruct e; cbn [edge_is Edge_eqb].
  - rewrite getReorderDestinationIndex_before, andb_false_r. cbn [orb].
    destruct (Z.eqb_spec index0 (sourceIndex + 1)),
             (Z.ltb_spec sourceIndex index0);
      match goal with
      | |- context [?a =? ?b] => destruct (Z.eqb_spec a b)
      end; try lia; cbn; split; split; congruence.
  - rewrite getReorderDestinationIndex_after, andb_false_r, orb_false_r.
    destruct (Z.eqb_spec index0 (sourceIndex - 1)),
             (Z.leb_spec sourceIndex index0);
      match goal with
      | |- context [?a =? ?b] => destruct (Z.eqb_spec a b)
      end; try lia; cbn; split; split; congruence.
Qed.

Lemma Full_indicator_hidden_iff_no_move_witness :
  let self_data :=
    Full.attachClosestEdge (Full.getItemData (mkItem "task-1" "") 0 1%positive)
      EdgeBottom in
  let source0 := mkSource 21%positive (Full.getItemData (mkItem "task-2" "") 1 1%positive) in
  (Full.onDrag 10%positive 0 self_data source0 = Returned None
   <-> Full.reorderItem 1 0 (Some EdgeBottom) = NoUpdate)
  /\ (Full.onDrag 10%positive 0 self_data source0 = Returned (Some EdgeBottom)
      <-> Full.reorderItem 1 0 (Some EdgeBottom) <> NoUpdate).
Proof.
  intros self_data source0.
  apply (Full_indicator_hidden_iff_no_move 10%positive 0 self_data source0 1 EdgeBottom).
  - discriminate.
  - lia.
  - reflexivity.
  - reflexivity.
Defined.

(** ** What every reachable list state satisfies *)

Lemma insert_at_Permutation {A : Type} (i : nat) (x : A) (l : list A) :
  insert_at i x l ≡ₚ x :: l.
Proof.
  unfold insert_at. rewrite <- Permutation_middle. by rewrite take_drop.
Qed.

Lemma reorder_Permutation {A : Type} (l : list A) (s d : Z) :
  0 <= s < Z.of_nat (length l) -> 0 <= d < Z.of_nat (length l) ->
  reorder l s d ≡ₚ l.
Proof.
  intros Hs Hd. destruct (at_index_in_range l s Hs) as (x & _ & Hx).
  rewrite (reorder_in_range l s d x Hs Hd Hx), insert_at_Permutation.
  symmetry. by apply delete_Permutation.
Qed.

Lemma getReorderDestinationIndex_bounds (len s t : Z) (e : Edge) :
  0 <= s < len -> 0 <= t < len ->
  0 <= getReorderDestinationIndex s (Some e) t < len.
Proof.
  intros Hs Ht. destruct e.
  - rewrite getReorderDestinationIndex_before. destruct (Z.ltb_spec s t); lia.
  - rewrite getReorderDestinationIndex_after. destruct (Z.leb_spec s t); lia.
Qed.

Lemma at_index_of_nat {A : Type} (l : list A) (i : nat) :
  at_index l (Z.of_nat i) = l !! i.
Proof.
  unfold at_index. destruct (Z.leb_spec 0 (Z.of_nat i)); [| lia].
  by rewrite Nat2Z.id.
Qed.

Lemma lookup_in_range {A : Type} (l : list A) (i : nat) (x : A) :
  l !! i = Some x -> 0 <= Z.of_nat i < Z.of_nat (length l).
Proof. intros H%lookup_lt_Some. lia. Qed.

Lemma Full_reachable_inv (instanceId0 : symbol) (init : list Item) (st : Full.ListState) :
  NoDup (id <$> init) ->
  Full_reachable instanceId0 init st ->
  Full.items st ≡ₚ init
  /\ match Full.lastCardMoved st with
     | None => True
     | Some m =>
         exists x,
           Full.mr_item m = Some x
           /\ at_index (Full.items st) (Full.currentIndex m) = Some x
           /\ 0 <= Full.previousIndex m < Z.of_nat (length (Full.items st))
           /\ 0 <= Full.currentIndex m < Z.of_nat (length (Full.items st))
           /\ Full.previousIndex m <> Full.currentIndex m
           /\ Full.numberOfItems m = Z.of_nat (length (Full.items st))
     end.
Proof.
  intros Hnd Hreach.
  induction Hreach as [| st handle si i tj j e outer Hreach [IHperm IHrec] Hi Hj].
  { split; [reflexivity | exact I]. }
  assert (Hnd' : NoDup (id <$> Full.items st)) by (by rewrite IHperm).
  rewrite (Full_drop_rendered instanceId0 _ handle si tj i j e outer Hnd' Hj).
  pose proof (lookup_in_range _ _ _ Hi) as Hri.
  pose proof (lookup_in_range _ _ _ Hj) as Hrj.
  pose proof (getReorderDestinationIndex_bounds _ _ _ e Hri Hrj) as Hrd.
  destruct (Z.eq_dec (getReorderDestinationIndex (Z.of_nat i) (Some e) (Z.of_nat j))
              (Z.of_nat i)) as [Heq | Hne].
  { rewrite (Full_reorderItem_skip _ _ _ Heq). cbn [commit]. by split. }
  rewrite (Full_reorderItem_dispatch _ _ _ Hne). cbn [commit].
  unfold Full.reorderItem_updater; cbn.
  split.
  - by rewrite reorder_Permutation.
  - exists si. rewrite length_reorder, at_index_of_nat.
    repeat split; try lia; try exact Hi.
    unfold at_index. destruct (Z.leb_spec 0
      (getReorderDestinationIndex (Z.of_nat i) (Some e) (Z.of_nat j))); [| lia].
    apply reorder_lookup_finish; try assumption. by rewrite Nat2Z.id.
Qed.

Lemma Plain_reachable_inv (instanceId0 : symbol) (init : list Item)
    (st : Plain.ListState) :
  NoDup (id <$> init) ->
  Plain_reachable instanceId0 init st ->
  Plain.items st ≡ₚ init
  /\ match Plain.lastMoved st with
     | None => True
     | Some m => exists x, Plain.lm_item m = Some x /\ x ∈ Plain.items st
     end.
Proof.
  intros Hnd Hreach.
  induction Hreach as [| st handle si i tj j e outer Hreach [IHperm IHrec] Hi Hj].
  { split; [reflexivity | exact I]. }
  assert (Hnd' : NoDup (id <$> Plain.items st)) by (by rewrite IHperm).
  rewrite (Plain_drop_rendered instanceId0 _ handle si tj i j e outer Hnd' Hj).
  pose proof (lookup_in_range _ _ _ Hi) as Hri.
  pose proof (lookup_in_range _ _ _ Hj) as Hrj.
  pose proof (getReorderDestinationIndex_bounds _ _ _ e Hri Hrj) as Hrd.
  destruct (Z.eq_dec (getReorderDestinationIndex (Z.of_nat i) (Some e) (Z.of_nat j))
              (Z.of_nat i)) as [Heq | Hne].
  { rewrite (Plain_reorderItem_skip _ _ _ Heq). cbn [commit]. by split. }
  rewrite (Plain_reorderItem_dispatch _ _ _ Hne). cbn [commit].
  unfold Plain.reorderItem_updater; cbn.
  assert (Hperm : reorder (Plain.items st) (Z.of_nat i)
                    (getReorderDestinationIndex (Z.of_nat i) (Some e) (Z.of_nat j))
                  ≡ₚ Plain.items st) by (by apply reorder_Permutation).
  split.
  - by rewrite Hperm.
  - exists si. rewrite at_index_of_nat. split; [exact Hi |].
    rewrite Hperm. by apply list_elem_of_lookup_2 in Hi.
Qed.

(** X10: drops between rendered items only permute the list.  From an
    initial list with unique ids, every list state reached holds the same
    items as the initial list, in some order: none is lost or doubled, the
    ids stay unique and the length stays the same, in both components. *)
Theorem reachable_items_permuted (instanceId0 : symbol) (init : list Item)
    (stF : Full.ListState) (stP : Plain.ListState) :
  NoDup (id <$> init) ->
  Full_reachable instanceId0 init stF ->
  Plain_reachable instanceId0 init stP ->
  (Full.items stF ≡ₚ init
   /\ NoDup (id <$> Full.items stF)
   /\ length (Full.items stF) = length init)
  /\ (Plain.items stP ≡ₚ init
      /\ NoDup (id <$> Plain.items stP)
      /\ length (Plain.items stP) = length init).
Proof.
  intros Hnd HF HP.
  destruct (Full_reachable_inv _ _ _ Hnd HF) as [HpF _].
  destruct (Plain_reachable_inv _ _ _ Hnd HP) as [HpP _].
  repeat split; try assumption; by rewrite ?HpF, ?HpP.
Qed.

(** X11: in every reachable state of the full component the last move
    record, if there is one, agrees with the list it is stored with: the
    recorded item stands at currentIndex in that list, previousIndex and
    currentIndex are two different positions of the list, and numberOfItems
    is its length. *)
Theorem Full_reachable_move_record (instanceId0 : symbol) (init : list Item)
    (st : Full.ListState) (m : Full.MoveRecord) :
  NoDup (id <$> init) ->
  Full_reachable instanceId0 init st ->
  Full.lastCardMoved st = Some m ->
  exists x,
    Full.mr_item m = Some x
    /\ at_index (Full.items st) (Full.currentIndex m) = Some x
    /\ 0 <= Full.previousIndex m < Z.of_nat (length (Full.items st))
    /\ 0 <= Full.currentIndex m < Z.of_nat (length (Full.items st))
    /\ Full.previousIndex m <> Full.currentIndex m
    /\ Full.numberOfItems m = Z.of_nat (length (Full.items st)).
Proof.
  intros Hnd Hreach Hm.
  destruct (Full_reachable_inv _ _ _ Hnd Hreach) as [_ Hrec].
  by rewrite Hm in Hrec.
Qed.

(** X12: in no reachable state does the post-drop effect throw, whatever
    the registry holds: the moved item it reads is always defined. *)
Theorem reachable_effect_returns (instanceId0 : symbol) (init : list Item)
    (stF : Full.ListState) (stP : Plain.ListState) (registry : Registry.t) :
  NoDup (id <$> init) ->
  Full_reachable instanceId0 init stF ->
  Plain_reachable instanceId0 init stP ->
  (exists actions, Full.postMoveEffect (Full.lastCardMoved stF) registry = Returned actions)
  /\ (exists actions,
        Plain.postMoveEffect (Plain.lastMoved stP) registry = Returned actions).
Proof.
  intros Hnd HF HP.
  destruct (Full_reachable_inv _ _ _ Hnd HF) as [_ HrF].
  destruct (Plain_reachable_inv _ _ _ Hnd HP) as [_ HrP].
  unfold Full.postMoveEffect, Plain.postMoveEffect. split.
  - destruct (Full.lastCardMoved stF) as [m |]; [| by eexists].
    destruct HrF as (x & -> & _). by eexists.
  - destruct (Plain.lastMoved stP) as [m |]; [| by eexists].
    destruct HrP as (x & -> & _).
    destruct (Registry.getElement (id x) registry); by eexists.
Qed.

(** The state after scenario A, as a reachable state. *)
Lemma Full_reachable_scenario_A :
  Full_reachable 1%positive defaultItems
    (commit (Full.drop 1%positive defaultItems
               (Full_gesture 1%positive 7%positive
                  (mkItem "task-1" "Organize a team-building event") 0
                  (mkItem "task-3" "Update company website content") 2 EdgeBottom []))
       (Full.mkListState defaultItems None)).
Proof.
  apply (Full_reach_drop 1%positive defaultItems (Full.mkListState defaultItems None));
    [constructor | reflexivity | reflexivity].
Qed.

Lemma Plain_reachable_scenario_A :
  Plain_reachable 1%positive defaultItems
    (commit (Plain.drop 1%positive defaultItems
               (Plain_gesture 1%positive 7%positive
                  (mkItem "task-1" "Organize a team-building event") 0
                  (mkItem "task-3" "Update company website content") 2 EdgeBottom []))
       (Plain.mkListState defaultItems None)).
Proof.
  apply (Plain_reach_drop 1%positive defaultItems (Plain.mkListState defaultItems None));
    [constructor | reflexivity | reflexivity].
Qed.

Lemma reachable_items_permuted_witness :
  let stF := commit (Full.drop 1%positive defaultItems
               (Full_gesture 1%positive 7%positive
                  (mkItem "task-1" "Organize a team-building event") 0
                  (mkItem "task-3" "Update company website content") 2 EdgeBottom []))
               (Full.mkListState defaultItems None) in
  let stP := commit (Plain.drop 1%positive defaultItems
               (Plain_gesture 1%positive 7%positive
                  (mkItem "task-1" "Organize a team-building event") 0
                  (mkItem "task-3" "Update company website content") 2 EdgeBottom []))
               (Plain.mkListState defaultItems None) in
  (Full.items stF ≡ₚ defaultItems
   /\ NoDup (id <$> Full.items stF)
   /\ length (Full.items stF) = length defaultItems)
  /\ (Plain.items stP ≡ₚ defaultItems
      /\ NoDup (id <$> Plain.items stP)
      /\ length (Plain.items stP) = length defaultItems).
Proof.
  intros stF stP.
  apply (reachable_items_permuted 1%positive defaultItems stF stP).
  - apply (bool_decide_unpack _). vm_compute. exact I.
  - exact Full_reachable_scenario_A.
  - exact Plain_reachable_scenario_A.
Defined.

Lemma Full_reachable_move_record_witness :
  let st := commit (Full.drop 1%positive defaultItems
              (Full_gesture 1%positive 7%positive
                 (mkItem "task-1" "Organize a team-building event") 0
                 (mkItem "task-3" "Update company website content") 2 EdgeBottom []))
              (Full.mkListState defaultItems None) in
  let m := Full.mkMoveRecord (Some (mkItem "task-1" "Organize a team-building event"))
             0 2 3 in
  exists x,
    Full.mr_item m = Some x
    /\ at_index (Full.items st) (Full.currentIndex m) = Some x
    /\ 0 <= Full.previousIndex m < Z.of_nat (length (Full.items st))
    /\ 0 <= Full.currentIndex m < Z.of_nat (length (Full.items st))
    /\ Full.previousIndex m <> Full.currentIndex m
    /\ Full.numberOfItems m = Z.of_nat (length (Full.items st)).
Proof.
  intros st m.
  apply (Full_reachable_move_record 1%positive defaultItems st m).
  - apply (bool_decide_unpack _). vm_compute. exact I.
  - exact Full_reachable_scenario_A.
  - reflexivity.
Defined.

Lemma reachable_effect_returns_witness :
  let stF := commit (Full.drop 1%positive defaultItems
               (Full_gesture 1%positive 7%positive
                  (mkItem "task-1" "Organize a team-building event") 0
                  (mkItem "task-3" "Update company website content") 2 EdgeBottom []))
               (Full.mkListState defaultItems None) in
  let stP := commit (Plain.drop 1%positive defaultItems
               (Plain_gesture 1%positive 7%positive
                  (mkItem "task-1" "Organize a team-building event") 0
                  (mkItem "task-3" "Update company website content") 2 EdgeBottom []))
               (Plain.mkListState defaultItems None) in
  (exists actions,
     Full.postMoveEffect (Full.lastCardMoved stF) Registry.empty = Returned actions)
  /\ (exists actions,
        Plain.postMoveEffect (Plain.lastMoved stP) Registry.empty = Returned actions).
Proof.
  intros stF stP.
  apply (reachable_effect_returns 1%positive defaultItems stF stP Registry.empty).
  - apply (bool_decide_unpack _). vm_compute. exact I.
  - exact Full_reachable_scenario_A.
  - exact Plain_reachable_scenario_A.
Defined.

(** ** Indicators shown where a drop changes nothing *)

(** X13: the plain component shows the closest edge on every drop target
    other than the source element.  For a target that is not at the source
    index, the indicator it shows marks a drop that changes nothing exactly
    on the bottom edge of the item before the dragged one and on the top
    edge of the item after it. *)
Theorem Plain_indicator_without_move_iff (element : HTMLElement) (index0 : Z)
    (self_data : Plain.Data) (source0 : DragSource Plain.Data)
    (sourceIndex : Z) (e : Edge) :
  source_element source0 <> element ->
  index0 <> sourceIndex ->
  Plain.extractClosestEdge self_data = Some e ->
  Plain.onDrag element self_data source0 = Some e
  /\ (Plain.reorderItem sourceIndex index0 (Some e) = NoUpdate
      <-> (index0 = sourceIndex - 1 /\ e = EdgeBottom)
          \/ (index0 = sourceIndex + 1 /\ e = EdgeTop)).
Proof.
  intros Hsrc Hself He. unfold Plain.onDrag, Plain.reorderItem. rewrite He.
  destruct (Pos.eqb_spec (source_element source0) element); [contradiction |].
  split; [reflexivity |].
  destruct e.
  - rewrite getReorderDestinationIndex_before.
    destruct (Z.ltb_spec sourceIndex index0);
      match goal with
      | |- context [?a =? ?b] => destruct (Z.eqb_spec a b)
      end; split; try done; try (intros _; right; split; [lia | done]);
      intros [[? ?] | [? ?]]; try done; lia.
  - rewrite getReorderDestinationIndex_after.
    destruct (Z.leb_spec sourceIndex index0);
      match goal with
      | |- context [?a =? ?b] => destruct (Z.eqb_spec a b)
      end; split; try done; try (intros _; left; split; [lia | done]);
      intros [[? ?] | [? ?]]; try done; lia.
Qed.

Lemma Plain_indicator_without_move_iff_witness :
  let self_data :=
    Plain.attachClosestEdge (Plain.itemData (mkItem "task-1" "") 0 1%positive)
      EdgeBottom in
  let source0 := mkSource 21%positive (Plain.itemData (mkItem "task-2" "") 1 1%positive) in
  Plain.onDrag 10%positive self_data source0 = Some EdgeBottom
  /\ (Plain.reorderItem 1 0 (Some EdgeBottom) = NoUpdate
      <-> (0 = 1 - 1 /\ EdgeBottom = EdgeBottom) \/ (0 = 1 + 1 /\ EdgeBottom = EdgeTop)).
Proof.
  intros self_data source0.
  apply (Plain_indicator_without_move_iff 10%positive 0 self_data source0 1 EdgeBottom).
  - discriminate.
  - lia.
  - reflexivity.
Defined.

(** X14: both onDrag handlers recognise the dragged item only by
    source.element === element.  On the drop target of the dragged item
    itself (same index as the source), whenever the source element handed
    to the handler is another element than the item's, the handler shows
    the closest edge, although a drop there changes nothing. *)
Theorem onDrag_own_item_other_element (element : HTMLElement) (instanceId0 : symbol)
    (it : Item) (i : nat) (handle : HTMLElement) (e : Edge) :
  handle <> element ->
  (Full.onDrag element (Z.of_nat i)
     (Full.attachClosestEdge (Full_payload instanceId0 it i) e)
     (mkSource handle (Full_payload instanceId0 it i)) = Returned (Some e)
   /\ Full.reorderItem (Z.of_nat i) (Z.of_nat i) (Some e) = NoUpdate)
  /\ (Plain.onDrag element
        (Plain.attachClosestEdge (Plain_payload instanceId0 it i) e)
        (mkSource handle (Plain_payload instanceId0 it i)) = Some e
      /\ Plain.reorderItem (Z.of_nat i) (Z.of_nat i) (Some e) = NoUpdate).
Proof.
  intros Hne.
  pose proof (getReorderDestinationIndex_self (Z.of_nat i) (Some e)) as Hself.
  rewrite (Full_reorderItem_skip _ _ _ Hself), (Plain_reorderItem_skip _ _ _ Hself).
  unfold Full.onDrag, Plain.onDrag; cbn.
  destruct (Pos.eqb_spec handle element); [contradiction |].
  repeat split.
  destruct (Z.eqb_spec (Z.of_nat i) (Z.of_nat i - 1)); [lia |].
  destruct (Z.eqb_spec (Z.of_nat i) (Z.of_nat i + 1)); [lia |].
  reflexivity.
Qed.

Lemma onDrag_own_item_other_element_witness :
  (Full.onDrag 10%positive (Z.of_nat 1)
     (Full.attachClosestEdge (Full_payload 1%positive (mkItem "task-2" "") 1) EdgeTop)
     (mkSource 21%positive (Full_payload 1%positive (mkItem "task-2" "") 1))
   = Returned (Some EdgeTop)
   /\ Full.reorderItem (Z.of_nat 1) (Z.of_nat 1) (Some EdgeTop) = NoUpdate)
  /\ (Plain.onDrag 10%positive
        (Plain.attachClosestEdge (Plain_payload 1%positive (mkItem "task-2" "") 1) EdgeTop)
        (mkSource 21%positive (Plain_payload 1%positive (mkItem "task-2" "") 1))
      = Some EdgeTop
      /\ Plain.reorderItem (Z.of_nat 1) (Z.of_nat 1) (Some EdgeTop) = NoUpdate).
Proof.
  apply (onDrag_own_item_other_element 10%positive 1%positive (mkItem "task-2" "") 1
           21%positive EdgeTop).
  discriminate.
Defined.
